(** * Prediction engine of the intervention simulation dashboard (src/app.py)

    Shallow embedding of the per-year linear predictor of [app.py]
    (lines 110-211): the coefficient lookups with default 0, the
    single-level and two-level ("pcogstate") formulas, the per-year loop
    that appends to [baseline_values] / [intervention_values], the change
    series [diff_values], and the loop over the selected interventions with
    its error reporting and final [st.stop()].

    Python evaluates the formulas on floats.  The arithmetic is therefore
    abstracted by a small class [Num] (the operations [+], [-], [*] and the
    literals [0] and [1.0] the code uses); it is instantiated at Rocq's
    primitive IEEE binary64 floats, which are Python's floats, and at the
    exact rationals [Q]. *)

From Stdlib Require Import ZArith QArith Floats Ascii.
From stdpp Require Import base gmap strings pretty list.

#[local] Set Warnings "-inexact-float".

(** ** Numbers *)

Class Num (A : Type) := {
  num_add : A -> A -> A;
  num_sub : A -> A -> A;
  num_mul : A -> A -> A;
  num_zero : A;   (** the literal [0] of [beta.get(k, 0)] *)
  num_one : A     (** the literal [1.0] of the baseline *)
}.

Declare Scope num_scope.
Delimit Scope num_scope with num.
Notation "x + y" := (num_add x y) (at level 50, left associativity) : num_scope.
Notation "x - y" := (num_sub x y) (at level 50, left associativity) : num_scope.
Notation "x * y" := (num_mul x y) (at level 40, left associativity) : num_scope.

(** Python floats: IEEE binary64. *)
#[global] Instance float_Num : Num float := {|
  num_add := PrimFloat.add; num_sub := PrimFloat.sub; num_mul := PrimFloat.mul;
  num_zero := 0%float; num_one := 1%float |}.

(** Exact arithmetic (the "real numbers" reading). *)
#[global] Instance Q_Num : Num Q := {|
  num_add := Qplus; num_sub := Qminus; num_mul := Qmult;
  num_zero := 0%Q; num_one := 1%Q |}.

(** ** Coefficient names ([app.py] lines 134-159)

    [f"{year_inc}.year_inc"] and friends: Python's [str] of an int is its
    decimal digits with a leading [-] when negative, which is stdpp's
    [pretty] on [Z]. *)

Definition year_inc_key (year_inc : Z) : string :=
  pretty year_inc +:+ ".year_inc".
Definition year_iv1_key (year_inc : Z) : string :=
  pretty year_inc +:+ ".year_inc#c.ivparm1".
Definition year_iv2_key (year_inc : Z) : string :=
  pretty year_inc +:+ ".year_inc#c.ivparm2".
Definition year_iv1_iv2_key (year_inc : Z) : string :=
  pretty year_inc +:+ ".year_inc#c.ivparm1#c.ivparm2".

Section Predictor.
Context {R : Type} `{!Num R}.
Local Open Scope num_scope.

(** [beta.get(k, 0)] on the column [beta = df[target_col]]. *)
Definition get (beta : gmap string R) (k : string) : R :=
  match beta !! k with
  | Some v => v
  | None => num_zero
  end.

(** The [else] branch (lines 130-139, 173-186), [L1 = intervention_levels[key]]. *)
Definition single_level (beta : gmap string R) (year : Z) (L1 : R) : R * R :=
  let year_inc := (year - 2024)%Z in
  let b_cons := get beta "_cons" in
  let b_year := get beta (year_inc_key year_inc) in
  let b_iv1 := get beta "ivparm1" in
  let b_year_iv1 := get beta (year_iv1_key year_inc) in
  let base_val := b_cons + b_year + b_iv1 * num_one + b_year_iv1 * num_one in
  let inter_val := b_cons + b_year + b_iv1 * L1 + b_year_iv1 * L1 in
  (base_val, inter_val).

(** The [if key == "pcogstate"] branch (lines 130-139, 141-171). *)
Definition two_level (beta : gmap string R) (year : Z) (L1 L2 : R) : R * R :=
  let year_inc := (year - 2024)%Z in
  let b_cons := get beta "_cons" in
  let b_year := get beta (year_inc_key year_inc) in
  let b_iv1 := get beta "ivparm1" in
  let b_year_iv1 := get beta (year_iv1_key year_inc) in
  let b_iv2 := get beta "ivparm2" in
  let b_year_iv2 := get beta (year_iv2_key year_inc) in
  let b_iv1_iv2 := get beta "c.ivparm1#c.ivparm2" in
  let b_year_iv1_iv2 := get beta (year_iv1_iv2_key year_inc) in
  let base_val := b_cons + b_year +
                  b_iv1 * num_one + b_year_iv1 * num_one +
                  b_iv2 * num_one + b_year_iv2 * num_one +
                  b_iv1_iv2 * num_one * num_one + b_year_iv1_iv2 * num_one * num_one in
  let inter_val := b_cons + b_year +
                   b_iv1 * L1 + b_year_iv1 * L1 +
                   b_iv2 * L2 + b_year_iv2 * L2 +
                   b_iv1_iv2 * L1 * L2 + b_year_iv1_iv2 * L1 * L2 in
  (base_val, inter_val).

(** One iteration of [for year in year_range] (lines 129-187): the branch
    on the intervention identity and the reads of [intervention_levels];
    [None] is the [KeyError] of a missing level. *)
Definition predict_year (key : string) (intervention_levels : gmap string R)
    (beta : gmap string R) (year : Z) : option (R * R) :=
  if String.eqb key "pcogstate" then
    L1 ← intervention_levels !! "pcogstate_1";
    L2 ← intervention_levels !! "pcogstate_2";
    Some (two_level beta year L1 L2)
  else
    L1 ← intervention_levels !! key;
    Some (single_level beta year L1).

(** The year loop with its two accumulators (lines 126-189). *)
Fixpoint year_loop (key : string) (intervention_levels : gmap string R)
    (beta : gmap string R) (years : list Z)
    (baseline_values intervention_values : list R) : option (list R * list R) :=
  match years with
  | [] => Some (baseline_values, intervention_values)
  | year :: years' =>
      '(base_val, inter_val) ← predict_year key intervention_levels beta year;
      year_loop key intervention_levels beta years'
        (baseline_values ++ [base_val]) (intervention_values ++ [inter_val])
  end.

(** [[i - b for i, b in zip(intervention_values, baseline_values)]] (line 202). *)
Definition diff_values (intervention_values baseline_values : list R) : list R :=
  zip_with (fun i b => i - b) intervention_values baseline_values.

(** The three series computed for one intervention (lines 126-206). *)
Definition series (key : string) (intervention_levels : gmap string R)
    (beta : gmap string R) (years : list Z) : option (list R * list R * list R) :=
  '(baseline_values, intervention_values) ←
    year_loop key intervention_levels beta years [] [];
  Some (baseline_values, intervention_values,
        diff_values intervention_values baseline_values).

End Predictor.

(** ** The simulation run (lines 93-211) *)

(** [INTERVENTION_OPTIONS] (lines 24-29): display name to intervention key. *)
Definition INTERVENTION_OPTIONS : list (string * string) :=
  [("Diabetes Incidence Reduction", "pdiabe");
   ("Heart Disease Incidence Reduction", "phearte");
   ("Hypertension Incidence Reduction", "phibpe");
   ("MCI/Dementia Incidence Reduction", "pcogstate")].

(** Reading a Python dict given as its items; [None] is a [KeyError]. *)
Fixpoint dict_get {V : Type} (d : list (string * V)) (k : string) : option V :=
  match d with
  | [] => None
  | (k', v) :: d' => if String.eqb k' k then Some v else dict_get d' k
  end.

(** [results_df[name] = vals]: replaces the column in place, or appends it. *)
Fixpoint set_column {V : Type} (cols : list (string * V)) (name : string) (vals : V)
    : list (string * V) :=
  match cols with
  | [] => [(name, vals)]
  | (n, v) :: cols' =>
      if String.eqb n name then (n, vals) :: cols'
      else (n, v) :: set_column cols' name vals
  end.

Definition baseline_col (display_name : string) : string :=
  "Baseline (" +:+ display_name +:+ ")".
Definition intervention_col (display_name : string) : string :=
  "Intervention (" +:+ display_name +:+ ")".
Definition change_col (display_name : string) : string :=
  "Change (" +:+ display_name +:+ ")".

(** The texts of the two [st.error] calls (lines 115 and 119). *)
Definition not_loaded_msg (key : string) : string :=
  "Dataset for " +:+ key +:+ " not loaded.".
Definition no_column_msg (target_col key : string) : string :=
  "Column '" +:+ target_col +:+ "' not found in " +:+ key +:+ " dataset.".

Section Run.
Context {R : Type} `{!Num R}.

(** A loaded CSV: column name to the column, itself row name to value. *)
Abbreviation frame := (gmap string (gmap string R)).

(** What the loop over the selected interventions changes: the messages
    shown with [st.error], the columns of [results_df] (the ["Year"] column
    apart) and [valid_plot]. *)
Record run_state := {
  errors : list string;
  results : list (string * list R);
  valid_plot : bool
}.

(** One iteration of [for display_name in selected_interventions]
    (lines 110-208); [None] is an uncaught [KeyError]. *)
Definition run_step (df_dict : gmap string frame) (intervention_levels : gmap string R)
    (target_col : string) (year_range : list Z) (st : run_state)
    (display_name : string) : option run_state :=
  key ← dict_get INTERVENTION_OPTIONS display_name;
  match df_dict !! key with
  | None =>
      Some {| errors := errors st ++ [not_loaded_msg key];
              results := results st; valid_plot := valid_plot st |}
  | Some df =>
      match df !! target_col with
      | None =>
          Some {| errors := errors st ++ [no_column_msg target_col key];
                  results := results st; valid_plot := valid_plot st |}
      | Some beta =>
          '(baseline_values, intervention_values) ←
            year_loop key intervention_levels beta year_range [] [];
          let cols := set_column (results st) (baseline_col display_name) baseline_values in
          let cols := set_column cols (intervention_col display_name) intervention_values in
          let diff := diff_values intervention_values baseline_values in
          let cols := set_column cols (baseline_col display_name) baseline_values in
          let cols := set_column cols (intervention_col display_name) intervention_values in
          let cols := set_column cols (change_col display_name) diff in
          Some {| errors := errors st; results := cols; valid_plot := true |}
      end
  end.

Fixpoint run_loop (df_dict : gmap string frame) (intervention_levels : gmap string R)
    (target_col : string) (year_range : list Z) (st : run_state)
    (selected : list string) : option run_state :=
  match selected with
  | [] => Some st
  | d :: ds =>
      st' ← run_step df_dict intervention_levels target_col year_range st d;
      run_loop df_dict intervention_levels target_col year_range st' ds
  end.

(** How a run ends: [st.stop()] (line 211), after which nothing is drawn,
    or the charts drawn from [results_df]. *)
Inductive outcome :=
  | Stopped (errs : list string)
  | Plotted (errs : list string) (cols : list (string * list R)).

Definition run_simulation (df_dict : gmap string frame) (intervention_levels : gmap string R)
    (target_col : string) (year_range : list Z) (selected : list string)
    : option outcome :=
  st ← run_loop df_dict intervention_levels target_col year_range
         {| errors := []; results := []; valid_plot := false |} selected;
  if valid_plot st then Some (Plotted (errors st) (results st))
  else Some (Stopped (errors st)).

(** Whether an intervention yields a result: its table is loaded and has
    the column [target_col]. *)
Definition usable (df_dict : gmap string frame) (target_col display_name : string) : bool :=
  match dict_get INTERVENTION_OPTIONS display_name with
  | None => false
  | Some key =>
      match df_dict !! key with
      | None => false
      | Some df => bool_decide (is_Some (df !! target_col))
      end
  end.

(** The message reported for an intervention that is skipped. *)
Definition skip_msg (df_dict : gmap string frame) (target_col key : string) : string :=
  match df_dict !! key with
  | None => not_loaded_msg key
  | Some _ => no_column_msg target_col key
  end.

(** The levels the chosen branch reads are set (they are, since the sidebar
    builds [intervention_levels] from the same selection, lines 84-91). *)
Definition levels_set (intervention_levels : gmap string R) (key : string) : Prop :=
  if String.eqb key "pcogstate" then
    is_Some (intervention_levels !! "pcogstate_1") /\
    is_Some (intervention_levels !! "pcogstate_2")
  else is_Some (intervention_levels !! key).

End Run.

Arguments run_state R : clear implicits.
Arguments outcome R : clear implicits.

(** ** Loading, level sliders, year range and the change chart (app.py) *)

(** [CLEANED_DATASETS] (lines 6-11). *)
Definition CLEANED_DATASETS : list (string * string) :=
  [("pdiabe", "clean_data/pdiabe_cleaned.csv");
   ("phearte", "clean_data/phearte_cleaned.csv");
   ("phibpe", "clean_data/phibpe_cleaned.csv");
   ("pcogstate", "clean_data/pcogstate_cleaned.csv")].

Section Loading.
Context {R : Type}.

(** [load_cleaned_data] (lines 13-20): the file system is the predicate
    [path_exists] ([os.path.exists]) and the reader [read_csv]
    ([pd.read_csv(path, index_col=0)]). *)
Definition load_cleaned_data (path_exists : string -> bool)
    (read_csv : string -> gmap string (gmap string R))
    : gmap string (gmap string (gmap string R)) :=
  foldl (fun df_dict '(key, path) =>
           if path_exists path then <[key := read_csv path]> df_dict else df_dict)
        ∅ CLEANED_DATASETS.

(** The sidebar loop that builds [intervention_levels] (lines 84-91); the
    widget [st.sidebar.slider] is the function [slider] from its label to
    the value it returns.  [None] is the [KeyError] of
    [INTERVENTION_OPTIONS[item]]. *)
Fixpoint levels_loop (slider : string -> R) (intervention_levels : gmap string R)
    (items : list string) : option (gmap string R) :=
  match items with
  | [] => Some intervention_levels
  | item :: items' =>
      key ← dict_get INTERVENTION_OPTIONS item;
      let intervention_levels' :=
        if String.eqb key "pcogstate" then
          <["pcogstate_2" := slider "MCI Prevalence Reduction"]>
            (<["pcogstate_1" := slider "Dementia Prevalence Reduction"]> intervention_levels)
        else <[key := slider (item +:+ " Level")]> intervention_levels in
      levels_loop slider intervention_levels' items'
  end.

Definition build_levels (slider : string -> R) (selected : list string)
    : option (gmap string R) :=
  levels_loop slider ∅ selected.

(** The entries of [intervention_levels] one item of the loop writes. *)
Definition level_names (key : string) : list string :=
  if String.eqb key "pcogstate" then ["pcogstate_1"; "pcogstate_2"] else [key].

(** The table and column an intervention reads, and its three series. *)
Definition column_series (df_dict : gmap string (gmap string (gmap string R)))
    `{!Num R} (intervention_levels : gmap string R) (target_col : string)
    (year_range : list Z) (display_name : string)
    : option (list R * list R * list R) :=
  key ← dict_get INTERVENTION_OPTIONS display_name;
  df ← df_dict !! key;
  beta ← df !! target_col;
  series key intervention_levels beta year_range.

End Loading.

(** [range(start, stop, step)] for [step > 0]: the values
    [start + step * i] below [stop]. *)
Definition py_range (start stop step : Z) : list Z :=
  (fun i : nat => start + step * Z.of_nat i)%Z <$>
    seq 0 (Z.to_nat ((stop - start + step - 1) / step)).

(** [year_range = list(range(start_year, end_year + 1, 2))] (line 100). *)
Definition year_range (start_year end_year : Z) : list Z :=
  py_range start_year (end_year + 1) 2.

(** [target_col = f"{outcome_code}_{subgroup_code}"] (line 98). *)
Definition target_col_of (outcome_code subgroup_code : string) : string :=
  outcome_code +:+ "_" +:+ subgroup_code.

(** The change chart (lines 293-312). *)
Definition colors : list string :=
  ["#990000"; "#FFCC00"; "#293035"; "#53616a"; "#bdc4c9"].

(** [sub in s] on strings. *)
Definition py_contains (sub s : string) : bool :=
  match String.index 0 sub s with Some _ => true | None => false end.

Record trace := {
  tr_name : string;
  tr_color : string;
  tr_x : list Z;
  tr_y : list float
}.

Definition change_name (display_name : string) : string :=
  "<b>Change:</b> " +:+ display_name.

(** [for i, display_name in enumerate(selected_interventions)]: a trace for
    every intervention whose [Change] column exists, scaled by 100 for a
    percentage outcome. *)
Fixpoint change_traces (results_df : list (string * list float)) (years : list Z)
    (selected_outcome : string) (i : nat) (selected : list string) : list trace :=
  match selected with
  | [] => []
  | display_name :: selected' =>
      let color := nth (i mod length colors) colors "" in
      let rest := change_traces results_df years selected_outcome (S i) selected' in
      match dict_get results_df (change_col display_name) with
      | Some y_val =>
          let y_val := if py_contains "%" selected_outcome
                       then (fun x => PrimFloat.mul x 100%float) <$> y_val else y_val in
          {| tr_name := change_name display_name; tr_color := color;
             tr_x := years; tr_y := y_val |} :: rest
      | None => rest
      end
  end.

(** [y_val * 100] when ["%" in selected_outcome], else [y_val]. *)
Definition percent_scale (selected_outcome : string) (y : list float) : list float :=
  if py_contains "%" selected_outcome then (fun x => PrimFloat.mul x 100%float) <$> y else y.

(** ** clean_data.py

    Strings are modelled as sequences of 8-bit characters, read as the
    code points U+0000 to U+00FF (Latin-1); [str.strip()] removes the
    characters for which [str.isspace] holds, which in this range are
    9-13, 28-31, the space 32, NEL 133 and the no-break space 160. *)

Definition py_isspace (c : ascii) : bool :=
  match nat_of_ascii c with
  | 9 | 10 | 11 | 12 | 13 | 28 | 29 | 30 | 31 | 32 | 133 | 160 => true
  | _ => false
  end.

(** The double quote character. *)
Definition dquote : ascii := ascii_of_nat 34.
Definition is_dquote (c : ascii) : bool := Ascii.eqb c dquote.

(** The prefix (an equals sign and a double quote) of a text cell written
    by a spreadsheet. *)
Definition eq_dquote : string := String "="%char (String dquote EmptyString).

Fixpoint lstrip (p : ascii -> bool) (s : string) : string :=
  match s with
  | EmptyString => EmptyString
  | String c s' => if p c then lstrip p s' else s
  end.

Fixpoint rstrip (p : ascii -> bool) (s : string) : string :=
  match s with
  | EmptyString => EmptyString
  | String c s' =>
      let r := rstrip p s' in
      if String.eqb r EmptyString && p c then EmptyString else String c r
  end.

(** [s.strip(chars)]. *)
Definition py_strip (p : ascii -> bool) (s : string) : string := rstrip p (lstrip p s).

Fixpoint last_char (s : string) : option ascii :=
  match s with
  | EmptyString => None
  | String c EmptyString => Some c
  | String _ s' => last_char s'
  end.

(** [s.endswith(c)] for a one-character [c]. *)
Definition py_endswith_char (c : ascii) (s : string) : bool :=
  match last_char s with Some c' => Ascii.eqb c' c | None => false end.

(** [s[2:-1]]. *)
Definition slice_2_m1 (s : string) : string := String.substring 2 (String.length s - 3) s.

(** [clean_column] (clean_data.py lines 15-20); [str(col)] is the identity
    on the header strings. *)
Definition clean_column (col : string) : string :=
  let col := py_strip py_isspace col in
  let col := if String.prefix eq_dquote col && py_endswith_char dquote col
             then slice_2_m1 col else col in
  py_strip is_dquote col.

(** [clean_cell] (clean_data.py lines 23-29): strings are cleaned, any other
    value is returned as it is. *)
Definition clean_cell {A : Type} (val : string + A) : string + A :=
  match val with
  | inl s =>
      let s := py_strip py_isspace s in
      if String.prefix eq_dquote s && py_endswith_char dquote s
      then inl (slice_2_m1 s)
      else inl (py_strip is_dquote s)
  | inr a => inr a
  end.

(** [RAW_DATASETS] and [CLEANED_DIR] (clean_data.py lines 4-11). *)
Definition RAW_DATASETS : list (string * string) :=
  [("pdiabe", "data/uscdm_emu_pdiabe_regression_ests.csv");
   ("phearte", "data/uscdm_emu_phearte_regression_ests.csv");
   ("phibpe", "data/uscdm_emu_phibpe_regression_ests.csv");
   ("pcogstate", "data/uscdm_emu_pcogstate_regression_ests.csv")].

Definition CLEANED_DIR : string := "clean_data".

(** [os.path.join(CLEANED_DIR, f"{name}_cleaned.csv")] (line 79). *)
Definition output_path (name : string) : string :=
  CLEANED_DIR +:+ "/" +:+ name +:+ "_cleaned.csv".

(** ** The formulas as the specification writes them (section 4.1) *)

Module Spec.
Section SpecFormulas.
Context {R : Type} `{!Num R}.
Local Open Scope num_scope.

(** Step 3: [value(L) = b_cons + b_year + b_iv1 * L + b_year_iv1 * L]. *)
Definition value_single (beta : gmap string R) (year : Z) (L : R) : R :=
  get beta "_cons" + get beta (year_inc_key (year - 2024))
  + get beta "ivparm1" * L + get beta (year_iv1_key (year - 2024)) * L.

(** Step 4: [value(L1,L2)]. *)
Definition value_two (beta : gmap string R) (year : Z) (L1 L2 : R) : R :=
  get beta "_cons" + get beta (year_inc_key (year - 2024))
  + get beta "ivparm1" * L1 + get beta (year_iv1_key (year - 2024)) * L1
  + get beta "ivparm2" * L2 + get beta (year_iv2_key (year - 2024)) * L2
  + get beta "c.ivparm1#c.ivparm2" * L1 * L2
  + get beta (year_iv1_iv2_key (year - 2024)) * L1 * L2.

End SpecFormulas.
End Spec.

(** The coefficient names of the second intervention level (section 8, P8). *)
Definition iv2_family (k : string) : Prop :=
  k = "ivparm2" \/ k = "c.ivparm1#c.ivparm2" \/
  exists Y : Z, k = year_iv2_key Y \/ k = year_iv1_iv2_key Y.

(** ** Example tables (section 8) *)

(** P2/P3: [{_cons: 10, "2.year_inc": 1, ivparm1: -4, "2.year_inc#c.ivparm1": -0.5}],
    as Python floats and as exact rationals. *)
Definition table_P2 : gmap string float :=
  list_to_map [("_cons", 10%float); ("2.year_inc", 1%float);
               ("ivparm1", (-4)%float); ("2.year_inc#c.ivparm1", (-0.5)%float)].
Definition table_P2_Q : gmap string Q :=
  list_to_map [("_cons", 10%Q); ("2.year_inc", 1%Q);
               ("ivparm1", (-4)%Q); ("2.year_inc#c.ivparm1", (-0.5)%Q)].

(** P4: main effects and the two-way interaction 1, [_cons] 0, and the
    [year_inc] terms of offset 2 (year 2026) 0. *)
Definition table_P4 : gmap string float :=
  list_to_map [("_cons", 0%float); ("ivparm1", 1%float); ("ivparm2", 1%float);
               ("c.ivparm1#c.ivparm2", 1%float); ("2.year_inc", 0%float);
               ("2.year_inc#c.ivparm1", 0%float); ("2.year_inc#c.ivparm2", 0%float);
               ("2.year_inc#c.ivparm1#c.ivparm2", 0%float)].

(** A column whose intercept cell is empty: pandas reads it as NaN. *)
Definition table_nan : gmap string float := {[ "_cons" := nan ]}.

(** The levels of a single-level intervention ["pdiabe"] at a given value. *)
Definition pdiabe_levels {R : Type} (L : R) : gmap string R := {[ "pdiabe" := L ]}.

(** P8: the P2 table with an [ivparm2] coefficient added. *)
Definition table_P2_iv2 : gmap string float := <[ "ivparm2" := 5%float ]> table_P2.

(** A run with three interventions selected: the diabetes table is loaded
    but lacks the column [p_diabe_all], the heart disease table has it, and
    the hypertension table is not loaded. *)
Definition demo_df_dict : gmap string (gmap string (gmap string float)) :=
  {[ "pdiabe" := {[ "n_diabe_all" := table_P2 ]};
     "phearte" := {[ "p_diabe_all" := table_P2 ]} ]}.
Definition demo_levels : gmap string float :=
  {[ "pdiabe" := 0.85%float; "phearte" := 0.85%float; "phibpe" := 0.85%float ]}.
Definition demo_selected : list string :=
  ["Diabetes Incidence Reduction"; "Heart Disease Incidence Reduction";
   "Hypertension Incidence Reduction"].

(** The sidebar sliders at their default values (app.py lines 88-91). *)
Definition demo_slider (label : string) : float :=
  if String.eqb label "MCI Prevalence Reduction" then 0.9%float else 0.85%float.

(** Sliders moved away from their defaults, each to its own value, and a
    selection of two single-level interventions and the dementia one. *)
Definition sample_slider (label : string) : float :=
  if String.eqb label "Diabetes Incidence Reduction Level" then 0.6%float
  else if String.eqb label "Dementia Prevalence Reduction" then 0.7%float
  else if String.eqb label "MCI Prevalence Reduction" then 0.8%float
  else 0.95%float.
Definition sample_selected : list string :=
  ["Diabetes Incidence Reduction"; "MCI/Dementia Incidence Reduction";
   "Hypertension Incidence Reduction"].

(** Hypotheses of P4 on a table: the two-level baseline of a table whose main effects and two-way
    interaction are 1 and whose other terms are 0, for that year. *)
Definition ones_table_hyps (beta : gmap string float) (year : Z) : Prop :=
  get beta "_cons" = 0%float /\ get beta "ivparm1" = 1%float /\
  get beta "ivparm2" = 1%float /\ get beta "c.ivparm1#c.ivparm2" = 1%float /\
  get beta (year_inc_key (year - 2024)) = 0%float /\
  get beta (year_iv1_key (year - 2024)) = 0%float /\
  get beta (year_iv2_key (year - 2024)) = 0%float /\
  get beta (year_iv1_iv2_key (year - 2024)) = 0%float.

(** ** Properties *)

(** *** Strings *)

Lemma string_length_app (s t : string) :
  String.length (s +:+ t) = (String.length s + String.length t)%nat.
Proof. induction s as [|c s IH]; [reflexivity | exact (f_equal _ IH)]. Qed.

Lemma string_app_assoc (s t u : string) : s +:+ (t +:+ u) = (s +:+ t) +:+ u.
Proof. induction s as [|c s IH]; [reflexivity | exact (f_equal _ IH)]. Qed.

(** Two strings that are equal and end in suffixes of the same length end
    in the same suffix. *)
Lemma string_app_same_suffix (s1 s2 t1 t2 : string) :
  String.length t1 = String.length t2 -> s1 +:+ t1 = s2 +:+ t2 -> t1 = t2.
Proof.
  revert s2. induction s1 as [|c1 s1 IH]; intros [|c2 s2] Hlen Heq.
  - exact Heq.
  - exfalso. change (t1 = String c2 (s2 +:+ t2)) in Heq. subst t1.
    simpl in Hlen. rewrite string_length_app in Hlen. lia.
  - exfalso. change (String c1 (s1 +:+ t1) = t2) in Heq. subst t2.
    simpl in Hlen. rewrite string_length_app in Hlen. lia.
  - change (String c1 (s1 +:+ t1) = String c2 (s2 +:+ t2)) in Heq.
    injection Heq as _ Heq. by apply (IH s2).
Qed.

Lemma string_last_char_neq (s1 s2 : string) (c1 c2 : Ascii.ascii) :
  c1 <> c2 -> s1 +:+ String c1 "" <> s2 +:+ String c2 "".
Proof.
  intros Hc Heq. apply string_app_same_suffix in Heq; [|done].
  injection Heq as Heq. done.
Qed.

(** Every name of the [ivparm2] family ends in ["2"]. *)
Lemma iv2_family_ends_in_2 (k : string) :
  iv2_family k -> exists p, k = p +:+ "2".
Proof.
  intros [-> | [-> | [Y [-> | ->]]]].
  - by exists "ivparm".
  - by exists "c.ivparm1#c.ivparm".
  - exists (pretty Y +:+ ".year_inc#c.ivparm").
    unfold year_iv2_key. by rewrite <- string_app_assoc.
  - exists (pretty Y +:+ ".year_inc#c.ivparm1#c.ivparm").
    unfold year_iv1_iv2_key. by rewrite <- string_app_assoc.
Qed.

Lemma not_iv2_family_last (k p : string) (c : Ascii.ascii) :
  c <> "2"%char -> k = p +:+ String c "" -> ~ iv2_family k.
Proof.
  intros Hc -> Hk. apply iv2_family_ends_in_2 in Hk as [q Hq].
  by apply (string_last_char_neq p q c "2"%char).
Qed.

(** The names the single-level formula reads are not of the family. *)
Lemma single_level_keys_not_iv2 (yi : Z) :
  ~ iv2_family "_cons" /\ ~ iv2_family (year_inc_key yi) /\
  ~ iv2_family "ivparm1" /\ ~ iv2_family (year_iv1_key yi).
Proof.
  split; [|split; [|split]].
  - by apply (not_iv2_family_last _ "_con" "s"%char).
  - apply (not_iv2_family_last _ (pretty yi +:+ ".year_in") "c"%char); [done|].
    unfold year_inc_key. by rewrite <- string_app_assoc.
  - by apply (not_iv2_family_last _ "ivparm" "1"%char).
  - apply (not_iv2_family_last _ (pretty yi +:+ ".year_inc#c.ivparm") "1"%char); [done|].
    unfold year_iv1_key. by rewrite <- string_app_assoc.
Qed.

(** *** Lookups *)

Section Lookups.
Context {R : Type} `{!Num R}.

Lemma get_absent (beta : gmap string R) (k : string) :
  beta !! k = None -> get beta k = num_zero.
Proof. unfold get. by intros ->. Qed.

Lemma get_insert_zero_absent (beta : gmap string R) (k k' : string) :
  beta !! k = None -> get (<[k := num_zero]> beta) k' = get beta k'.
Proof.
  intros Hk. unfold get. destruct (decide (k = k')) as [<- | Hne].
  - by rewrite lookup_insert_eq, Hk.
  - by rewrite lookup_insert_ne.
Qed.

Lemma get_agree (beta1 beta2 : gmap string R) (k : string) :
  beta1 !! k = beta2 !! k -> get beta1 k = get beta2 k.
Proof. unfold get. by intros ->. Qed.

End Lookups.

(** *** The two formulas *)

Section Formulas.
Context {R : Type} `{!Num R}.

(** C1: the single-level predictor uses [year_inc = year - 2024], reads
    [_cons], [{year_inc}.year_inc], [ivparm1] and
    [{year_inc}.year_inc#c.ivparm1] with default 0, and returns
    [(value(1.0), value(L1))] with
    [value(L) = b_cons + b_year + b_iv1 * L + b_year_iv1 * L]. *)
Theorem single_level_formula (beta : gmap string R) (year : Z) (L1 : R) :
  single_level beta year L1 =
    (Spec.value_single beta year num_one, Spec.value_single beta year L1) /\
  (forall k, beta !! k = None -> get beta k = num_zero).
Proof. split; [reflexivity | apply get_absent]. Qed.

(** C2: the two-level predictor returns [(value(1.0, 1.0), value(L1, L2))]
    with the eight-coefficient [value(L1,L2)], every coefficient read by its
    documented name with default 0. *)
Theorem two_level_formula (beta : gmap string R) (year : Z) (L1 L2 : R) :
  two_level beta year L1 L2 =
    (Spec.value_two beta year num_one num_one, Spec.value_two beta year L1 L2) /\
  (forall k, beta !! k = None -> get beta k = num_zero).
Proof. split; [reflexivity | apply get_absent]. Qed.

(** The single-level formula reads only names outside the [ivparm2] family. *)
Lemma single_level_ignores_iv2 (beta1 beta2 : gmap string R) (year : Z) (L1 : R) :
  (forall k, ~ iv2_family k -> beta1 !! k = beta2 !! k) ->
  single_level beta1 year L1 = single_level beta2 year L1.
Proof.
  intros Hagree.
  destruct (single_level_keys_not_iv2 (year - 2024)) as (H1 & H2 & H3 & H4).
  unfold single_level.
  rewrite (get_agree beta1 beta2 _ (Hagree _ H1)),
          (get_agree beta1 beta2 _ (Hagree _ H2)),
          (get_agree beta1 beta2 _ (Hagree _ H3)),
          (get_agree beta1 beta2 _ (Hagree _ H4)).
  reflexivity.
Qed.

(** C3: the two-level formula is used exactly for the intervention
    ["pcogstate"], the single-level one for every other intervention, and
    then the result does not depend on the [ivparm2] family of
    coefficients: two tables that agree outside that family give the same
    result. *)
Theorem variant_selection (key : string) (levels : gmap string R)
    (beta1 beta2 : gmap string R) (year : Z) :
  (forall k, ~ iv2_family k -> beta1 !! k = beta2 !! k) ->
  (key = "pcogstate" ->
     predict_year key levels beta1 year =
       (L1 ← levels !! "pcogstate_1"; L2 ← levels !! "pcogstate_2";
        Some (two_level beta1 year L1 L2))) /\
  (key <> "pcogstate" ->
     predict_year key levels beta1 year =
       (L1 ← levels !! key; Some (single_level beta1 year L1)) /\
     predict_year key levels beta1 year = predict_year key levels beta2 year).
Proof.
  intros Hagree. unfold predict_year. split.
  - intros ->. reflexivity.
  - intros Hne. destruct (String.eqb_spec key "pcogstate") as [-> | _]; [done|].
    split; [reflexivity|].
    destruct (levels !! key) as [L1|]; simpl; [|done].
    by rewrite (single_level_ignores_iv2 beta1 beta2 year L1 Hagree).
Qed.

(** C4: a coefficient absent from the table behaves as that coefficient
    set to 0, in both formulas, for every year and all levels; the lookups
    are total. *)
Theorem missing_key_is_zero (beta : gmap string R) (k : string) :
  beta !! k = None ->
  (forall year L1,
     single_level (<[k := num_zero]> beta) year L1 = single_level beta year L1) /\
  (forall year L1 L2,
     two_level (<[k := num_zero]> beta) year L1 L2 = two_level beta year L1 L2) /\
  (forall key levels year,
     predict_year key levels (<[k := num_zero]> beta) year =
     predict_year key levels beta year).
Proof.
  intros Hk.
  assert (Hsingle : forall year L1,
     single_level (<[k := num_zero]> beta) year L1 = single_level beta year L1).
  { intros year L1. unfold single_level.
    rewrite !(get_insert_zero_absent beta k _ Hk). reflexivity. }
  assert (Htwo : forall year L1 L2,
     two_level (<[k := num_zero]> beta) year L1 L2 = two_level beta year L1 L2).
  { intros year L1 L2. unfold two_level.
    rewrite !(get_insert_zero_absent beta k _ Hk). reflexivity. }
  split; [exact Hsingle|]. split; [exact Htwo|].
  intros key levels year. unfold predict_year.
  destruct (String.eqb key "pcogstate").
  - destruct (levels !! "pcogstate_1"), (levels !! "pcogstate_2"); simpl;
      rewrite ?Htwo; reflexivity.
  - destruct (levels !! key); simpl; rewrite ?Hsingle; reflexivity.
Qed.

End Formulas.

(** *** The year loop and the change series *)

Section Series.
Context {R : Type} `{!Num R}.
Local Open Scope num_scope.

Lemma year_loop_Some (key : string) (levels beta : gmap string R) (years : list Z)
    (bs is bs' is' : list R) :
  year_loop key levels beta years bs is = Some (bs', is') ->
  exists ps : list (R * R),
    Forall2 (fun y p => predict_year key levels beta y = Some p) years ps /\
    bs' = bs ++ (fst <$> ps) /\ is' = is ++ (snd <$> ps).
Proof.
  revert bs is. induction years as [|y years IH]; intros bs is Hloop; simpl in Hloop.
  - injection Hloop as <- <-. exists []. by rewrite !app_nil_r.
  - destruct (predict_year key levels beta y) as [[b i]|] eqn:Hy; simpl in Hloop; [|done].
    destruct (IH _ _ Hloop) as (ps & Hps & -> & ->).
    exists ((b, i) :: ps). split; [by constructor|].
    by rewrite <- !app_assoc.
Qed.

Lemma series_lookup (key : string) (levels beta : gmap string R) (years : list Z)
    (bs is ch : list R) (j : nat) (y : Z) :
  series key levels beta years = Some (bs, is, ch) -> years !! j = Some y ->
  exists b i, predict_year key levels beta y = Some (b, i) /\
    bs !! j = Some b /\ is !! j = Some i /\ ch !! j = Some (i - b).
Proof.
  unfold series. intros Hs Hj.
  destruct (year_loop key levels beta years [] []) as [[bs0 is0]|] eqn:Hloop;
    simpl in Hs; [|done].
  injection Hs as <- <- <-.
  destruct (year_loop_Some _ _ _ _ _ _ _ _ Hloop) as (ps & Hps & -> & ->).
  destruct (Forall2_lookup_l _ _ _ _ _ Hps Hj) as ([b i] & Hp & Hy).
  exists b, i. split; [done|].
  simpl. rewrite !list_lookup_fmap, Hp. split; [done|]. split; [done|].
  unfold diff_values. rewrite lookup_zip_with, !list_lookup_fmap, Hp. done.
Qed.

(** C5: in every computed series, the change reported for a year is
    exactly [intervention - baseline] of the predictor outputs for that
    year and those levels, and there is one per year. *)
Theorem change_is_difference (key : string) (levels beta : gmap string R)
    (years : list Z) (bs is ch : list R) :
  series key levels beta years = Some (bs, is, ch) ->
  length ch = length years /\
  forall (j : nat) (y : Z), years !! j = Some y ->
    exists b i, predict_year key levels beta y = Some (b, i) /\
      bs !! j = Some b /\ is !! j = Some i /\ ch !! j = Some (i - b).
Proof.
  intros Hs. split.
  - unfold series in Hs.
    destruct (year_loop key levels beta years [] []) as [[bs0 is0]|] eqn:Hloop;
      simpl in Hs; [|done].
    injection Hs as <- <- <-.
    destruct (year_loop_Some _ _ _ _ _ _ _ _ Hloop) as (ps & Hps & -> & ->).
    unfold diff_values. simpl. rewrite length_zip_with, !length_fmap.
    rewrite (Forall2_length _ _ _ Hps). lia.
  - intros j y Hj. exact (series_lookup _ _ _ _ _ _ _ _ _ Hs Hj).
Qed.

(** C9: the predictor is a function of its inputs only.  Equal inputs give
    equal outputs, and in a series the values at a year do not depend on
    the other years computed before or after it in the same loop (no state
    is carried from one year to the next). *)
Theorem predictor_pure (key : string) (levels beta : gmap string R)
    (years1 years2 : list Z) (j1 j2 : nat) (y : Z)
    (bs1 is1 ch1 bs2 is2 ch2 : list R) :
  years1 !! j1 = Some y -> years2 !! j2 = Some y ->
  series key levels beta years1 = Some (bs1, is1, ch1) ->
  series key levels beta years2 = Some (bs2, is2, ch2) ->
  bs1 !! j1 = bs2 !! j2 /\ is1 !! j1 = is2 !! j2 /\ ch1 !! j1 = ch2 !! j2.
Proof.
  intros Hj1 Hj2 Hs1 Hs2.
  destruct (series_lookup _ _ _ _ _ _ _ _ _ Hs1 Hj1) as (b1 & i1 & Hp1 & -> & -> & ->).
  destruct (series_lookup _ _ _ _ _ _ _ _ _ Hs2 Hj2) as (b2 & i2 & Hp2 & -> & -> & ->).
  rewrite Hp1 in Hp2. injection Hp2 as <- <-. done.
Qed.

End Series.

(** *** The loop over the selected interventions *)

Lemma dict_get_set_column_same {V : Type} (cols : list (string * V)) (n : string) (v : V) :
  dict_get (set_column cols n v) n = Some v.
Proof.
  induction cols as [|[n' v'] cols IH]; simpl.
  - by rewrite String.eqb_refl.
  - destruct (String.eqb_spec n' n) as [-> | Hne]; simpl.
    + by rewrite String.eqb_refl.
    + apply String.eqb_neq in Hne. by rewrite Hne.
Qed.

Lemma dict_get_set_column_is_Some {V : Type} (cols : list (string * V))
    (n m : string) (v : V) :
  is_Some (dict_get cols m) -> is_Some (dict_get (set_column cols n v) m).
Proof.
  induction cols as [|[n' v'] cols IH]; simpl; [by intros []|].
  destruct (String.eqb_spec n' n) as [-> | Hne]; simpl.
  - by destruct (String.eqb n m).
  - destruct (String.eqb n' m); [done|]. exact IH.
Qed.

Section RunProps.
Context {R : Type} `{!Num R}.
Abbreviation frame := (gmap string (gmap string R)).

Lemma predict_year_total (key : string) (levels beta : gmap string R) (year : Z) :
  levels_set levels key -> exists p, predict_year key levels beta year = Some p.
Proof.
  unfold levels_set, predict_year. destruct (String.eqb key "pcogstate").
  - intros [[L1 ->] [L2 ->]]. simpl. eauto.
  - intros [L1 ->]. simpl. eauto.
Qed.

Lemma year_loop_total (key : string) (levels beta : gmap string R) (years : list Z)
    (bs is : list R) :
  levels_set levels key -> exists r, year_loop key levels beta years bs is = Some r.
Proof.
  intros Hlv. revert bs is. induction years as [|y years IH]; intros bs is; simpl; [eauto|].
  destruct (predict_year_total key levels beta y Hlv) as [[b i] ->]. simpl. apply IH.
Qed.

(** An intervention whose table is not loaded, or lacks the column, only
    adds its message. *)
Lemma run_step_skip (df_dict : gmap string frame) (levels : gmap string R)
    (target_col : string) (years : list Z) (st : run_state R) (d key : string) :
  dict_get INTERVENTION_OPTIONS d = Some key -> usable df_dict target_col d = false ->
  run_step df_dict levels target_col years st d =
    Some {| errors := errors st ++ [skip_msg df_dict target_col key];
            results := results st; valid_plot := valid_plot st |}.
Proof.
  intros Hkey Hus. unfold usable in Hus. rewrite Hkey in Hus.
  unfold run_step, skip_msg. rewrite Hkey. simpl.
  destruct (df_dict !! key) as [df|]; [|done].
  destruct (df !! target_col) as [beta|]; [|done].
  exfalso. rewrite bool_decide_eq_false in Hus. by apply Hus.
Qed.

(** A usable intervention writes its columns, keeps the others and the
    messages, and sets [valid_plot]. *)
Lemma run_step_use (df_dict : gmap string frame) (levels : gmap string R)
    (target_col : string) (years : list Z) (st : run_state R) (d key : string) :
  dict_get INTERVENTION_OPTIONS d = Some key -> levels_set levels key ->
  usable df_dict target_col d = true ->
  exists st', run_step df_dict levels target_col years st d = Some st' /\
    errors st' = errors st /\ valid_plot st' = true /\
    is_Some (dict_get (results st') (change_col d)) /\
    (forall n, is_Some (dict_get (results st) n) -> is_Some (dict_get (results st') n)).
Proof.
  intros Hkey Hlv Hus. unfold usable in Hus. rewrite Hkey in Hus.
  unfold run_step. rewrite Hkey. simpl.
  destruct (df_dict !! key) as [df|]; [|done].
  destruct (df !! target_col) as [beta|] eqn:Hcol;
    [|rewrite bool_decide_eq_true in Hus; by destruct Hus].
  destruct (year_loop_total key levels beta years [] [] Hlv) as [[bs is] ->]. simpl.
  eexists. split; [reflexivity|]. simpl.
  split; [done|]. split; [done|]. split.
  - rewrite dict_get_set_column_same. eauto.
  - intros n Hn. repeat apply dict_get_set_column_is_Some. exact Hn.
Qed.

Lemma run_loop_spec (df_dict : gmap string frame) (levels : gmap string R)
    (target_col : string) (years : list Z) (selected : list string) (st : run_state R) :
  (forall d, d ∈ selected -> exists key,
     dict_get INTERVENTION_OPTIONS d = Some key /\ levels_set levels key) ->
  exists st', run_loop df_dict levels target_col years st selected = Some st' /\
    (forall m, m ∈ errors st -> m ∈ errors st') /\
    (forall d key, d ∈ selected -> dict_get INTERVENTION_OPTIONS d = Some key ->
       usable df_dict target_col d = false -> skip_msg df_dict target_col key ∈ errors st') /\
    (forall n, is_Some (dict_get (results st) n) -> is_Some (dict_get (results st') n)) /\
    (forall d, d ∈ selected -> usable df_dict target_col d = true ->
       is_Some (dict_get (results st') (change_col d))) /\
    valid_plot st' = valid_plot st || existsb (usable df_dict target_col) selected.
Proof.
  revert st. induction selected as [|d ds IH]; intros st Hsel; cbn [run_loop existsb].
  - exists st. split; [done|]. split; [done|]. split; [intros ? ? Hin; inversion Hin|].
    split; [done|]. split; [intros ? Hin; inversion Hin|]. by rewrite orb_false_r.
  - destruct (Hsel d ltac:(left)) as (key & Hkey & Hlv).
    assert (Hds : forall d', d' ∈ ds -> exists key',
               dict_get INTERVENTION_OPTIONS d' = Some key' /\ levels_set levels key').
    { intros d' Hd'. apply Hsel. by right. }
    destruct (usable df_dict target_col d) eqn:Hus.
    + destruct (run_step_use df_dict levels target_col years st d key Hkey Hlv Hus)
        as (st1 & -> & Herr1 & Hval1 & Hch1 & Hres1).
      cbn [mbind option_bind]. destruct (IH st1 Hds) as (st' & Hrun & Herr & Hskip & Hres & Hch & Hval).
      exists st'. split; [exact Hrun|].
      split; [intros m Hm; apply Herr; by rewrite Herr1|].
      split.
      { intros d' key' Hd' Hkey' Hus'. apply elem_of_cons in Hd' as [-> | Hd'].
        - congruence.
        - exact (Hskip d' key' Hd' Hkey' Hus'). }
      split; [intros n Hn; by apply Hres, Hres1|].
      split.
      { intros d' Hd' Hus'. apply elem_of_cons in Hd' as [-> | Hd'].
        - by apply Hres.
        - by apply Hch. }
      rewrite Hval, Hval1. by destruct (valid_plot st).
    + rewrite (run_step_skip df_dict levels target_col years st d key Hkey Hus).
      cbn [mbind option_bind].
      destruct (IH {| errors := errors st ++ [skip_msg df_dict target_col key];
                      results := results st; valid_plot := valid_plot st |} Hds)
        as (st' & Hrun & Herr & Hskip & Hres & Hch & Hval).
      exists st'. split; [exact Hrun|].
      simpl in Herr, Hres, Hval.
      split; [intros m Hm; apply Herr, elem_of_app; by left|].
      split.
      { intros d' key' Hd' Hkey' Hus'. apply elem_of_cons in Hd' as [-> | Hd'].
        - assert (key' = key) as -> by congruence.
          apply Herr, elem_of_app. right. by left.
        - exact (Hskip d' key' Hd' Hkey' Hus'). }
      split; [exact Hres|].
      split.
      { intros d' Hd' Hus'. apply elem_of_cons in Hd' as [-> | Hd'].
        - congruence.
        - by apply Hch. }
      by rewrite Hval.
Qed.

End RunProps.

Section RunClaim.
Context {R : Type} `{!Num R}.

(** C6: an intervention whose table is not loaded, or whose table lacks
    the selection column, is reported and skipped (the step only adds its
    message), while the others are still processed; the messages of all
    skipped interventions are shown, every usable intervention gets its
    columns, and when none is usable the run ends in [st.stop()] with no
    chart. *)
Theorem skip_and_stop (df_dict : gmap string (gmap string (gmap string R)))
    (levels : gmap string R) (target_col : string) (years : list Z)
    (selected : list string) :
  (forall d, d ∈ selected -> exists key,
     dict_get INTERVENTION_OPTIONS d = Some key /\ levels_set levels key) ->
  (forall (st : run_state R) d key,
     dict_get INTERVENTION_OPTIONS d = Some key -> usable df_dict target_col d = false ->
     run_step df_dict levels target_col years st d =
       Some {| errors := errors st ++ [skip_msg df_dict target_col key];
               results := results st; valid_plot := valid_plot st |}) /\
  exists errs,
    (forall d key, d ∈ selected -> dict_get INTERVENTION_OPTIONS d = Some key ->
       usable df_dict target_col d = false -> skip_msg df_dict target_col key ∈ errs) /\
    (if existsb (usable df_dict target_col) selected then
       exists cols,
         run_simulation df_dict levels target_col years selected = Some (Plotted errs cols) /\
         (forall d, d ∈ selected -> usable df_dict target_col d = true ->
            is_Some (dict_get cols (change_col d)))
     else run_simulation df_dict levels target_col years selected = Some (@Stopped R errs)).
Proof.
  intros Hsel. split.
  { intros st d key Hkey Hus. by apply run_step_skip. }
  destruct (run_loop_spec df_dict levels target_col years selected
              {| errors := []; results := []; valid_plot := false |} Hsel)
    as (st' & Hrun & _ & Hskip & _ & Hch & Hval).
  simpl in Hval.
  exists (errors st'). split; [exact Hskip|].
  unfold run_simulation. rewrite Hrun. cbn [mbind option_bind].
  rewrite Hval. destruct (existsb (usable df_dict target_col) selected).
  - exists (results st'). split; [reflexivity | exact Hch].
  - reflexivity.
Qed.

End RunClaim.

(** *** Concrete values *)

Example table_P2_keys : year_inc_key (2026 - 2024) = "2.year_inc".
Proof. vm_compute. reflexivity. Qed.


(** C7, counterexample: on the P4 table the two-level baseline of 2026 is
    not 4. *)
Lemma two_level_baseline_not_4 :
  fst (two_level table_P4 2026 1%float 1%float) <> 4%float.
Proof. vm_compute. discriminate. Qed.

(** C7, amended: for a table whose main effects [ivparm1], [ivparm2] and
    two-way interaction [c.ivparm1#c.ivparm2] are 1, whose [_cons] is 0 and
    whose [year_inc] terms for the year are 0, the two-level baseline
    (L1 = L2 = 1.0) is exactly 3 = 1 + 1 + 1, for all levels L1, L2. *)
Theorem two_level_baseline_ones (beta : gmap string float) (year : Z) (L1 L2 : float) :
  ones_table_hyps beta year -> fst (two_level beta year L1 L2) = 3%float.
Proof.
  intros (H1 & H2 & H3 & H4 & H5 & H6 & H7 & H8).
  unfold two_level. cbv zeta. simpl fst.
  rewrite H1, H2, H3, H4, H5, H6, H7, H8. reflexivity.
Qed.

Lemma two_level_baseline_ones_witness :
  ones_table_hyps table_P4 2026 /\
  fst (two_level table_P4 2026 0.85%float 0.9%float) = 3%float.
Proof.
  assert (H : ones_table_hyps table_P4 2026).
  { unfold ones_table_hyps. vm_compute. repeat split. }
  split; [exact H | exact (two_level_baseline_ones table_P4 2026 0.85%float 0.9%float H)].
Defined.

(** C8, counterexample: in Python's floats the change for the P2 table at
    L1 = 0.85 in 2026 is not 0.675. *)
Lemma example_P3_change_not_0675 :
  series "pdiabe" (pdiabe_levels 0.85%float) table_P2 [2026%Z] <>
  Some ([6.5%float], [7.175%float], [0.675%float]).
Proof. vm_compute. discriminate. Qed.

(** C8, amended: for the P2 table, year 2026 and L1 = 0.85 the baseline is
    6.5 and the intervention value is 7.175 (the nearest double, as Python
    prints it); the change, the double subtraction of the two, is
    0.6749999999999998.  In exact arithmetic the three values are 6.5,
    7.175 and 0.675. *)
Theorem example_P2_P3 :
  series "pdiabe" (pdiabe_levels 0.85%float) table_P2 [2026%Z] =
    Some ([6.5%float], [7.175%float], [0.6749999999999998%float]) /\
  exists b i c,
    series "pdiabe" (pdiabe_levels 0.85%Q) table_P2_Q [2026%Z] = Some ([b], [i], [c]) /\
    Qeq b 6.5%Q /\ Qeq i 7.175%Q /\ Qeq c 0.675%Q.
Proof.
  split.
  - vm_compute. reflexivity.
  - eexists _, _, _. split; [vm_compute; reflexivity|].
    split; [|split]; vm_compute; reflexivity.
Qed.

(** C10, counterexample: with a NaN coefficient the change at level 1.0
    is NaN, not 0. *)
Lemma level_one_change_nan :
  series "pdiabe" (pdiabe_levels 1%float) table_nan [2026%Z] <>
  Some ([nan], [nan], [0%float]).
Proof. vm_compute. discriminate. Qed.

(** In binary64, [x - x] is [+0.0] for a finite [x] and NaN for a NaN or
    an infinite [x]. *)
Lemma float_sub_self (x : float) :
  PrimFloat.sub x x = if PrimFloat.is_finite x then 0%float else nan.
Proof.
  apply FloatAxioms.Prim2SF_inj. rewrite FloatAxioms.sub_spec.
  unfold is_finite, is_nan, is_infinity.
  rewrite (FloatAxioms.eqb_spec x x), (FloatAxioms.eqb_spec (abs x)), FloatAxioms.abs_spec.
  destruct (Prim2SF x) as [s|s| |s m e].
  - destruct s; vm_compute; reflexivity.
  - destruct s; vm_compute; reflexivity.
  - vm_compute; reflexivity.
  - assert (Hc : SFeqb (S754_finite s m e) (S754_finite s m e) = true).
    { unfold SFeqb, SFcompare. rewrite Z.compare_refl, Pos.compare_cont_refl.
      destruct s; reflexivity. }
    rewrite Hc.
    assert (Hi : SFeqb (SFabs (S754_finite s m e)) (Prim2SF infinity) = false).
    { vm_compute. reflexivity. }
    rewrite Hi. cbn [negb orb].
    unfold SF64sub, SFsub. rewrite Z.sub_diag. vm_compute. reflexivity.
Qed.

(** C10, amended: at level 1.0 (L1 = L2 = 1.0 for the two-level formula)
    the intervention value is the same number as the baseline, for every
    number type, table and year.  The change [intervention - baseline] is
    then 0 in exact arithmetic; in Python's floats it is exactly [+0.0]
    whenever the baseline is a finite float, and NaN when the baseline is
    NaN or infinite (a NaN coefficient the formula reads, or an overflow). *)
Theorem level_one_no_change :
  (forall (R : Type) `(NumR : Num R) (beta : gmap string R) (year : Z),
     snd (single_level beta year num_one) = fst (single_level beta year num_one) /\
     snd (two_level beta year num_one num_one) = fst (two_level beta year num_one num_one)) /\
  (forall (beta : gmap string Q) (year : Z),
     Qeq (snd (single_level beta year 1%Q) - fst (single_level beta year 1%Q))%Q 0%Q /\
     Qeq (snd (two_level beta year 1%Q 1%Q) - fst (two_level beta year 1%Q 1%Q))%Q 0%Q) /\
  (forall (beta : gmap string float) (year : Z),
     PrimFloat.sub (snd (single_level beta year 1%float))
                   (fst (single_level beta year 1%float)) =
       (if PrimFloat.is_finite (fst (single_level beta year 1%float))
        then 0%float else nan) /\
     PrimFloat.sub (snd (two_level beta year 1%float 1%float))
                   (fst (two_level beta year 1%float 1%float)) =
       (if PrimFloat.is_finite (fst (two_level beta year 1%float 1%float))
        then 0%float else nan)).
Proof.
  split; [|split].
  - intros R NumR beta year. split; reflexivity.
  - intros beta year. split; apply Qplus_opp_r.
  - intros beta year. split; apply float_sub_self.
Qed.

(** *** Witnesses *)

Lemma single_level_formula_witness :
  single_level table_P2 2026 0.85%float =
    (Spec.value_single table_P2 2026 1%float, Spec.value_single table_P2 2026 0.85%float) /\
  get table_P2 "ivparm2" = 0%float.
Proof.
  destruct (single_level_formula table_P2 2026 0.85%float) as [H1 H2].
  split; [exact H1 | apply H2; vm_compute; reflexivity].
Defined.

Lemma two_level_formula_witness :
  two_level table_P4 2026 0.85%float 0.9%float =
    (Spec.value_two table_P4 2026 1%float 1%float,
     Spec.value_two table_P4 2026 0.85%float 0.9%float) /\
  get table_P4 "4.year_inc" = 0%float.
Proof.
  destruct (two_level_formula table_P4 2026 0.85%float 0.9%float) as [H1 H2].
  split; [exact H1 | apply H2; vm_compute; reflexivity].
Defined.

Lemma variant_selection_witness :
  predict_year "pdiabe" (pdiabe_levels 0.85%float) table_P2 2026 =
  predict_year "pdiabe" (pdiabe_levels 0.85%float) table_P2_iv2 2026.
Proof.
  refine (proj2 (proj2 (variant_selection "pdiabe" (pdiabe_levels 0.85%float)
                          table_P2 table_P2_iv2 2026 _) _)).
  - intros k Hk. unfold table_P2_iv2. rewrite lookup_insert_ne; [reflexivity|].
    intros <-. apply Hk. left. reflexivity.
  - discriminate.
Defined.

Lemma missing_key_is_zero_witness :
  single_level (<[ "4.year_inc" := 0%float ]> table_P2) 2028 0.85%float =
  single_level table_P2 2028 0.85%float.
Proof.
  assert (Hk : table_P2 !! "4.year_inc" = None) by (vm_compute; reflexivity).
  exact (proj1 (missing_key_is_zero table_P2 "4.year_inc" Hk) 2028%Z 0.85%float).
Defined.

Lemma change_is_difference_witness :
  length [0.67499999999999982%float; 0.59999999999999964%float] = length [2026%Z; 2028%Z].
Proof.
  apply (proj1 (@change_is_difference float float_Num "pdiabe" (pdiabe_levels 0.85%float) table_P2
    [2026%Z; 2028%Z] [6.5%float; 6%float]
    [7.1749999999999998%float; 6.5999999999999996%float]
    [0.67499999999999982%float; 0.59999999999999964%float] ltac:(vm_compute; reflexivity))).
Defined.

Lemma predictor_pure_witness :
  [6.5%float; 6%float] !! 0%nat = [6%float; 6.5%float] !! 1%nat.
Proof.
  apply (proj1 (@predictor_pure float float_Num "pdiabe" (pdiabe_levels 0.85%float) table_P2
    [2026%Z; 2028%Z] [2028%Z; 2026%Z] 0 1 2026
    [6.5%float; 6%float] [7.1749999999999998%float; 6.5999999999999996%float]
    [0.67499999999999982%float; 0.59999999999999964%float]
    [6%float; 6.5%float] [6.5999999999999996%float; 7.1749999999999998%float]
    [0.59999999999999964%float; 0.67499999999999982%float]
    ltac:(reflexivity) ltac:(reflexivity)
    ltac:(vm_compute; reflexivity) ltac:(vm_compute; reflexivity))).
Defined.

Lemma skip_and_stop_witness :
  exists errs cols,
    run_simulation demo_df_dict demo_levels "p_diabe_all" [2026%Z] demo_selected =
      Some (Plotted errs cols) /\
    skip_msg demo_df_dict "p_diabe_all" "pdiabe" ∈ errs /\
    skip_msg demo_df_dict "p_diabe_all" "phibpe" ∈ errs.
Proof.
  assert (Hsel : forall d, d ∈ demo_selected -> exists key,
            dict_get INTERVENTION_OPTIONS d = Some key /\ levels_set demo_levels key).
  { intros d Hd. unfold demo_selected in Hd.
    repeat (apply elem_of_cons in Hd as [-> | Hd]);
      [| | | by apply elem_of_nil in Hd];
      (eexists; split; [reflexivity | vm_compute; eexists; reflexivity]). }
  destruct (skip_and_stop demo_df_dict demo_levels "p_diabe_all" [2026%Z] demo_selected Hsel)
    as [_ (errs & Hskip & Hrun)].
  assert (Hex : existsb (usable demo_df_dict "p_diabe_all") demo_selected = true)
    by (vm_compute; reflexivity).
  rewrite Hex in Hrun.
  destruct Hrun as (cols & Hr & _).
  exists errs, cols. split; [exact Hr|]. split.
  - apply (Hskip "Diabetes Incidence Reduction"); [by left | reflexivity | vm_compute; reflexivity].
  - apply (Hskip "Hypertension Incidence Reduction");
      [by right; right; left | reflexivity | vm_compute; reflexivity].
Defined.

(** *** clean_data.py: stripping and unwrapping *)

Section Strip.
Variable p : ascii -> bool.

Lemma lstrip_head (s : string) :
  match lstrip p s with EmptyString => True | String c _ => p c = false end.
Proof.
  induction s as [|c s IH]; simpl; [done|].
  destruct (p c) eqn:Hc; [exact IH | exact Hc].
Qed.

Lemma rstrip_cons (c : ascii) (s : string) :
  rstrip p (String c s) = EmptyString \/
  exists r, rstrip p (String c s) = String c r.
Proof.
  simpl. destruct (String.eqb (rstrip p s) EmptyString && p c); [by left | right; eauto].
Qed.

Lemma last_char_cons (c : ascii) (s : string) :
  last_char (String c s) = if String.eqb s EmptyString then Some c else last_char s.
Proof. by destruct s. Qed.

Lemma rstrip_last (s : string) :
  match last_char (rstrip p s) with Some c => p c = false | None => True end.
Proof.
  induction s as [|c s IH]; [done|].
  change (rstrip p (String c s)) with
    (if String.eqb (rstrip p s) EmptyString && p c then EmptyString
     else String c (rstrip p s)).
  destruct (String.eqb (rstrip p s) EmptyString) eqn:E.
  - apply String.eqb_eq in E. destruct (p c) eqn:Hc; cbn [andb]; [done|].
    rewrite E. exact Hc.
  - cbn [andb]. rewrite last_char_cons, E. exact IH.
Qed.

Lemma lstrip_id (s : string) :
  match s with EmptyString => True | String c _ => p c = false end -> lstrip p s = s.
Proof. destruct s as [|c s]; simpl; [done|]. by intros ->. Qed.

Lemma rstrip_id (s : string) :
  match last_char s with Some c => p c = false | None => True end -> rstrip p s = s.
Proof.
  induction s as [|c s IH]; simpl; [done|]. intros Hlast.
  destruct s as [|c' s'].
  - simpl in *. by rewrite Hlast.
  - rewrite IH by exact Hlast. reflexivity.
Qed.

Lemma py_strip_head (s : string) :
  match py_strip p s with EmptyString => True | String c _ => p c = false end.
Proof.
  unfold py_strip. pose proof (lstrip_head s) as Hh.
  destruct (lstrip p s) as [|c r]; [done|].
  destruct (rstrip_cons c r) as [-> | [r' ->]]; done.
Qed.

Lemma py_strip_last (s : string) :
  match last_char (py_strip p s) with Some c => p c = false | None => True end.
Proof. apply rstrip_last. Qed.

Lemma py_strip_idem (s : string) : py_strip p (py_strip p s) = py_strip p s.
Proof.
  unfold py_strip at 1.
  rewrite (lstrip_id _ (py_strip_head s)).
  exact (rstrip_id _ (py_strip_last s)).
Qed.

Lemma py_strip_id (s : string) :
  match s with EmptyString => True | String c _ => p c = false end ->
  match last_char s with Some c => p c = false | None => True end ->
  py_strip p s = s.
Proof. intros Hh Hl. unfold py_strip. rewrite (lstrip_id _ Hh). exact (rstrip_id _ Hl). Qed.

End Strip.

Lemma last_char_snoc (s : string) (c : ascii) :
  last_char (s +:+ String c EmptyString) = Some c.
Proof.
  induction s as [|c' s IH]; [reflexivity|].
  change (last_char (String c' (s +:+ String c EmptyString)) = Some c).
  rewrite last_char_cons.
  destruct (String.eqb_spec (s +:+ String c EmptyString) EmptyString) as [Hnil|_].
  - exfalso. apply (f_equal String.length) in Hnil.
    rewrite string_length_app in Hnil. simpl in Hnil. lia.
  - exact IH.
Qed.

Lemma substring_0_length_app (s t : string) :
  String.substring 0 (String.length s) (s +:+ t) = s.
Proof.
  induction s as [|c s IH]; [by destruct t|].
  change (String c (String.substring 0 (String.length s) (s +:+ t)) = String c s).
  by rewrite IH.
Qed.

Lemma string_prefix_app (s t : string) : String.prefix s (s +:+ t) = true.
Proof.
  induction s as [|c s IH]; [by destruct t|].
  change (String.prefix (String c s) (String c (s +:+ t)) = true).
  simpl. destruct (ascii_dec c c); [exact IH | done].
Qed.

Lemma is_dquote_false (c : ascii) : is_dquote c = false -> c <> dquote.
Proof. unfold is_dquote. intros H ->. by rewrite Ascii.eqb_refl in H. Qed.

(** A cell written by a spreadsheet as [="x"] is cleaned to exactly [x],
    whatever [x] holds (quotes and blanks included). *)
Theorem clean_cell_unwraps {A : Type} (x : string) :
  @clean_cell A (inl (eq_dquote +:+ x +:+ String dquote EmptyString)) = inl x.
Proof.
  set (s := eq_dquote +:+ x +:+ String dquote EmptyString).
  assert (Hlast : last_char s = Some dquote).
  { change s with (String "="%char (String dquote x) +:+ String dquote EmptyString).
    apply last_char_snoc. }
  assert (Hstrip : py_strip py_isspace s = s).
  { apply py_strip_id; [reflexivity|]. rewrite Hlast. reflexivity. }
  unfold clean_cell. rewrite Hstrip.
  assert (Hpre : String.prefix eq_dquote s = true) by apply string_prefix_app.
  assert (Hend : py_endswith_char dquote s = true).
  { unfold py_endswith_char. rewrite Hlast. apply Ascii.eqb_refl. }
  rewrite Hpre, Hend. simpl andb. f_equal.
  unfold slice_2_m1.
  change s with (String "="%char (String dquote (x +:+ String dquote EmptyString))).
  change (String.length (String "="%char (String dquote (x +:+ String dquote EmptyString))))
    with (S (S (String.length (x +:+ String dquote EmptyString)))).
  rewrite string_length_app. simpl String.length.
  replace (S (S (String.length x + 1)) - 3)%nat with (String.length x) by lia.
  change (String.substring 0 (String.length x) (x +:+ String dquote EmptyString) = x).
  apply substring_0_length_app.
Qed.

(** On a string, [clean_column] is [clean_cell] followed by stripping
    double quotes; [clean_cell] keeps strings strings. *)
Theorem clean_column_via_cell {A : Type} (s : string) :
  exists t, @clean_cell A (inl s) = inl t /\ clean_column s = py_strip is_dquote t.
Proof.
  unfold clean_cell, clean_column.
  destruct (String.prefix eq_dquote (py_strip py_isspace s) &&
            py_endswith_char dquote (py_strip py_isspace s)).
  - eexists. split; reflexivity.
  - eexists. split; [reflexivity|]. by rewrite py_strip_idem.
Qed.

(** A cleaned column name never starts nor ends with a double quote. *)
Theorem clean_column_no_quotes (col : string) :
  match clean_column col with EmptyString => True | String c _ => c <> dquote end /\
  last_char (clean_column col) <> Some dquote.
Proof.
  unfold clean_column.
  set (t := if String.prefix eq_dquote (py_strip py_isspace col) &&
               py_endswith_char dquote (py_strip py_isspace col)
            then slice_2_m1 (py_strip py_isspace col) else py_strip py_isspace col).
  split.
  - pose proof (py_strip_head is_dquote t) as H.
    destruct (py_strip is_dquote t) as [|c r]; [done|]. by apply is_dquote_false.
  - pose proof (py_strip_last is_dquote t) as H.
    destruct (last_char (py_strip is_dquote t)) as [c|]; [|done].
    intros [= ->]. by apply (is_dquote_false dquote).
Qed.

(** A value with no blank or double quote at either end is left unchanged
    by both cleaners. *)
Theorem clean_fixed_points {A : Type} (s : string) :
  match s with EmptyString => True
  | String c _ => py_isspace c = false /\ is_dquote c = false end ->
  match last_char s with Some c => py_isspace c = false /\ is_dquote c = false
  | None => True end ->
  @clean_cell A (inl s) = inl s /\ clean_column s = s.
Proof.
  intros Hh Hl.
  assert (Hsp : py_strip py_isspace s = s).
  { apply py_strip_id.
    - destruct s; [done | apply Hh].
    - destruct (last_char s); [apply Hl | done]. }
  assert (Hq : py_strip is_dquote s = s).
  { apply py_strip_id.
    - destruct s; [done | apply Hh].
    - destruct (last_char s); [apply Hl | done]. }
  assert (Hend : py_endswith_char dquote s = false).
  { unfold py_endswith_char. destruct (last_char s) as [c|]; [|done].
    destruct Hl as [_ Hc]. exact Hc. }
  unfold clean_cell, clean_column. rewrite Hsp, Hend, andb_false_r, Hq.
  split; reflexivity.
Qed.

Lemma clean_fixed_points_witness :
  @clean_cell unit (inl "_cons") = inl "_cons" /\ clean_column "_cons" = "_cons".
Proof.
  exact (@clean_fixed_points unit "_cons" ltac:(vm_compute; split; reflexivity)
           ltac:(vm_compute; split; reflexivity)).
Defined.

(** *** app.py: loading the cleaned tables *)

Section LoadProps.
Context {R : Type}.

Lemma foldl_load_lookup (path_exists : string -> bool)
    (read_csv : string -> gmap string (gmap string R))
    (l : list (string * string)) (m : gmap string (gmap string (gmap string R)))
    (key : string) :
  NoDup (fst <$> l) ->
  foldl (fun df_dict '(key, path) =>
           if path_exists path then <[key := read_csv path]> df_dict else df_dict) m l !! key =
    match dict_get l key with
    | Some path => if path_exists path then Some (read_csv path) else m !! key
    | None => m !! key
    end.
Proof.
  revert m. induction l as [|[k p] l IH]; intros m Hnd; [reflexivity|].
  cbn [foldl fmap list_fmap fst] in *. apply NoDup_cons in Hnd as [Hk Hnd].
  rewrite (IH _ Hnd). cbn [dict_get].
  destruct (String.eqb_spec k key) as [-> | Hne].
  - assert (Hnone : dict_get l key = None).
    { clear IH Hnd. induction l as [|[k' p'] l IHl]; [reflexivity|].
      cbn [dict_get]. destruct (String.eqb_spec k' key) as [-> | _].
      - exfalso. apply Hk. by left.
      - apply IHl. intros Hin. apply Hk. by right. }
    rewrite Hnone. destruct (path_exists p); [|reflexivity]. by rewrite lookup_insert_eq.
  - destruct (dict_get l key) as [p'|].
    + destruct (path_exists p'); [reflexivity|].
      destruct (path_exists p); [by rewrite lookup_insert_ne|reflexivity].
    + destruct (path_exists p); [by rewrite lookup_insert_ne|reflexivity].
Qed.

Lemma CLEANED_DATASETS_NoDup : NoDup (fst <$> CLEANED_DATASETS).
Proof. vm_compute. repeat constructor; set_solver. Qed.

Lemma load_cleaned_data_lookup_gen (path_exists : string -> bool)
    (read_csv : string -> gmap string (gmap string R)) (key : string) :
  load_cleaned_data path_exists read_csv !! key =
    match dict_get CLEANED_DATASETS key with
    | Some path => if path_exists path then Some (read_csv path) else None
    | None => None
    end.
Proof.
  unfold load_cleaned_data. rewrite foldl_load_lookup by exact CLEANED_DATASETS_NoDup.
  rewrite lookup_empty. by destruct (dict_get CLEANED_DATASETS key) as [p|];
    [destruct (path_exists p)|].
Qed.

End LoadProps.
(** Every intervention key has a cleaned file, [clean_data/<key>_cleaned.csv]. *)
Lemma option_key_path (d key : string) :
  dict_get INTERVENTION_OPTIONS d = Some key ->
  dict_get CLEANED_DATASETS key = Some ("clean_data/" +:+ key +:+ "_cleaned.csv").
Proof.
  cbn [dict_get INTERVENTION_OPTIONS].
  repeat match goal with
         | |- context [String.eqb ?a d] => destruct (String.eqb a d)
         end; intros [= <-]; reflexivity.
Qed.

(** The display names of [INTERVENTION_OPTIONS] have distinct keys. *)
Lemma option_key_inj (d1 d2 key : string) :
  dict_get INTERVENTION_OPTIONS d1 = Some key ->
  dict_get INTERVENTION_OPTIONS d2 = Some key -> d1 = d2.
Proof.
  cbn [dict_get INTERVENTION_OPTIONS].
  repeat match goal with
         | |- context [String.eqb ?a ?d] => destruct (String.eqb_spec a d) as [<- | _]
         end; congruence.
Qed.

Lemma option_key_cases (d key : string) :
  dict_get INTERVENTION_OPTIONS d = Some key ->
  key = "pdiabe" \/ key = "phearte" \/ key = "phibpe" \/ key = "pcogstate".
Proof.
  cbn [dict_get INTERVENTION_OPTIONS].
  repeat match goal with
         | |- context [String.eqb ?a d] => destruct (String.eqb a d)
         end; intros [= <-]; tauto.
Qed.

(** Distinct intervention keys write distinct level entries. *)
Lemma level_names_disjoint (d1 d2 k1 k2 n : string) :
  dict_get INTERVENTION_OPTIONS d1 = Some k1 ->
  dict_get INTERVENTION_OPTIONS d2 = Some k2 -> k1 <> k2 ->
  n ∈ level_names k1 -> n ∉ level_names k2.
Proof.
  intros H1 H2 Hne Hn1 Hn2.
  destruct (option_key_cases d1 k1 H1) as [-> | [-> | [-> | ->]]];
  destruct (option_key_cases d2 k2 H2) as [-> | [-> | [-> | ->]]];
  try congruence; unfold level_names in Hn1, Hn2; simpl String.eqb in Hn1, Hn2;
  cbn iota in Hn1, Hn2;
  repeat match goal with
         | H : _ ∈ _ :: _ |- _ => apply elem_of_cons in H as [H | H]
         | H : _ ∈ [] |- _ => by apply elem_of_nil in H
         end; congruence.
Qed.

Section LevelsProps.
Context {R : Type} (slider : string -> R).

Lemma levels_loop_Some (lv : gmap string R) (items : list string) :
  Forall (fun d => is_Some (dict_get INTERVENTION_OPTIONS d)) items ->
  is_Some (levels_loop slider lv items).
Proof.
  revert lv. induction items as [|d ds IH]; intros lv Hall; cbn [levels_loop]; [eauto|].
  apply Forall_cons in Hall as [[key Hkey] Hds]. rewrite Hkey. cbn [mbind option_bind].
  apply IH, Hds.
Qed.

Lemma levels_loop_mono (lv lv' : gmap string R) (items : list string) (k : string) :
  levels_loop slider lv items = Some lv' -> is_Some (lv !! k) -> is_Some (lv' !! k).
Proof.
  revert lv. induction items as [|d ds IH]; intros lv Hrun Hk; cbn [levels_loop] in Hrun.
  - by injection Hrun as <-.
  - destruct (dict_get INTERVENTION_OPTIONS d) as [key|]; [|done].
    cbn [mbind option_bind] in Hrun. apply (IH _ Hrun).
    destruct (String.eqb key "pcogstate");
      rewrite ?lookup_insert_is_Some'; tauto.
Qed.

(** The entries an item writes are not touched by items of other keys. *)
Lemma levels_loop_other (lv lv' : gmap string R) (items : list string) (k : string) :
  levels_loop slider lv items = Some lv' ->
  (forall it key, it ∈ items -> dict_get INTERVENTION_OPTIONS it = Some key ->
     k ∉ level_names key) ->
  lv' !! k = lv !! k.
Proof.
  revert lv. induction items as [|d ds IH]; intros lv Hrun Hout; cbn [levels_loop] in Hrun.
  - by injection Hrun as <-.
  - destruct (dict_get INTERVENTION_OPTIONS d) as [key|] eqn:Hkey; [|done].
    cbn [mbind option_bind] in Hrun.
    rewrite (IH _ Hrun) by (intros it key' Hit; apply Hout; by right).
    assert (Hk : k ∉ level_names key) by (apply (Hout d); [left | exact Hkey]).
    unfold level_names in Hk. destruct (String.eqb key "pcogstate").
    + rewrite !lookup_insert_ne; [done | |]; intros <-; apply Hk; first [by left | by right; left].
    + rewrite lookup_insert_ne; [done|]. intros <-. apply Hk. by left.
Qed.

Lemma levels_loop_values (lv lv' : gmap string R) (items : list string) (d key : string) :
  levels_loop slider lv items = Some lv' -> d ∈ items ->
  dict_get INTERVENTION_OPTIONS d = Some key ->
  if String.eqb key "pcogstate" then
    lv' !! "pcogstate_1" = Some (slider "Dementia Prevalence Reduction") /\
    lv' !! "pcogstate_2" = Some (slider "MCI Prevalence Reduction")
  else lv' !! key = Some (slider (d +:+ " Level")).
Proof.
  revert lv. induction items as [|d0 ds IH]; intros lv Hrun Hd Hkey;
    [by apply elem_of_nil in Hd|].
  destruct (decide (d ∈ ds)) as [Hds | Hds]; cbn [levels_loop] in Hrun.
  { destruct (dict_get INTERVENTION_OPTIONS d0); [|done].
    exact (IH _ Hrun Hds Hkey). }
  apply elem_of_cons in Hd as [<- | Hd]; [|done].
  rewrite Hkey in Hrun. cbn [mbind option_bind] in Hrun.
  assert (Hkeep : forall k, k ∈ level_names key ->
            lv' !! k = (if String.eqb key "pcogstate" then
                <["pcogstate_2" := slider "MCI Prevalence Reduction"]>
                  (<["pcogstate_1" := slider "Dementia Prevalence Reduction"]> lv)
              else <[key := slider (d +:+ " Level")]> lv) !! k).
  { intros k Hk. apply (levels_loop_other _ _ ds k Hrun).
    intros it key' Hit Hkey'. apply (level_names_disjoint d it key key'); try done.
    intros <-. apply Hds. by rewrite (option_key_inj it d key Hkey' Hkey) in Hit. }
  unfold level_names in Hkeep. destruct (String.eqb key "pcogstate").
  - rewrite !Hkeep by (first [by left | by right; left]). split.
    + by rewrite lookup_insert_ne, lookup_insert_eq.
    + by rewrite lookup_insert_eq.
  - rewrite Hkeep by (by left). by rewrite lookup_insert_eq.
Qed.

Lemma levels_loop_domain (lv lv' : gmap string R) (items : list string) (k : string) :
  levels_loop slider lv items = Some lv' -> is_Some (lv' !! k) ->
  is_Some (lv !! k) \/
  exists d key, d ∈ items /\ dict_get INTERVENTION_OPTIONS d = Some key /\
    k ∈ level_names key.
Proof.
  revert lv. induction items as [|d0 ds IH]; intros lv Hrun Hk; cbn [levels_loop] in Hrun.
  - injection Hrun as <-. by left.
  - destruct (dict_get INTERVENTION_OPTIONS d0) as [key|] eqn:Hkey; [|done].
    cbn [mbind option_bind] in Hrun.
    destruct (IH _ Hrun Hk) as [Hk1 | (d & key' & Hd & Hkey' & Hn)].
    + assert (Hnew : k ∈ level_names key \/ is_Some (lv !! k)).
      { unfold level_names. destruct (String.eqb key "pcogstate").
        - rewrite !lookup_insert_is_Some' in Hk1.
          destruct Hk1 as [<- | [<- | Hk1]]; [left; by right; left | left; by left | by right].
        - rewrite lookup_insert_is_Some' in Hk1.
          destruct Hk1 as [<- | Hk1]; [left; by left | by right]. }
      destruct Hnew as [Hn | Hn]; [|by left].
      right. exists d0, key. split; [by left | done].
    + right. exists d, key'. split; [by right | done].
Qed.

End LevelsProps.

Section RunLoadProps.
Context {R : Type} `{!Num R}.

(** Without any table, every step only reports that its table is not loaded. *)
Lemma run_loop_empty (levels : gmap string R) (target_col : string) (years : list Z)
    (st : run_state R) (selected : list string) :
  run_loop ∅ levels target_col years st selected =
    (keys ← mapM (dict_get INTERVENTION_OPTIONS) selected;
     Some {| errors := errors st ++ (not_loaded_msg <$> keys);
             results := results st; valid_plot := valid_plot st |}).
Proof.
  revert st. induction selected as [|d ds IH]; intros st; cbn [run_loop mapM].
  - cbn. by rewrite app_nil_r; destruct st.
  - unfold run_step. destruct (dict_get INTERVENTION_OPTIONS d) as [key|]; [|reflexivity].
    cbn [mbind option_bind]. rewrite lookup_empty. cbn [mbind option_bind].
    rewrite IH. cbn [errors results valid_plot].
    destruct (mapM (dict_get INTERVENTION_OPTIONS) ds) as [keys|]; [|reflexivity].
    cbn. by rewrite <- app_assoc.
Qed.

End RunLoadProps.

(** [load_cleaned_data] holds a table exactly for the keys of
    [CLEANED_DATASETS] whose file exists, and that table is the one read
    from the file. *)
Theorem load_cleaned_data_lookup {R : Type} (path_exists : string -> bool)
    (read_csv : string -> gmap string (gmap string R)) (key : string) :
  load_cleaned_data path_exists read_csv !! key =
    (path ← dict_get CLEANED_DATASETS key;
     if path_exists path then Some (read_csv path) else None).
Proof.
  rewrite load_cleaned_data_lookup_gen.
  by destruct (dict_get CLEANED_DATASETS key).
Qed.

(** When no cleaned file exists, a run reports for every selected
    intervention, in order, that its table is not loaded, and stops without
    a chart; it raises [KeyError] only on an unknown display name. *)
Theorem no_files_stop {R : Type} `{!Num R} (path_exists : string -> bool)
    (read_csv : string -> gmap string (gmap string R))
    (levels : gmap string R) (target_col : string) (years : list Z)
    (selected : list string) :
  (forall path, path_exists path = false) ->
  run_simulation (load_cleaned_data path_exists read_csv) levels target_col years selected =
    (keys ← mapM (dict_get INTERVENTION_OPTIONS) selected;
     Some (@Stopped R (not_loaded_msg <$> keys))).
Proof.
  intros Hnone.
  assert (Hempty : load_cleaned_data path_exists read_csv = ∅).
  { apply map_eq. intros k. rewrite load_cleaned_data_lookup_gen, lookup_empty.
    destruct (dict_get CLEANED_DATASETS k) as [p|]; [by rewrite Hnone | done]. }
  unfold run_simulation. rewrite Hempty, run_loop_empty.
  by destruct (mapM (dict_get INTERVENTION_OPTIONS) selected).
Qed.

(** When every selected name is a display name of [INTERVENTION_OPTIONS],
    the sidebar builds the levels, and the run that uses them never raises
    [KeyError], whatever tables are loaded and whatever the column and the
    years. *)
Theorem valid_selection_runs {R : Type} `{!Num R} (slider : string -> R)
    (selected : list string) :
  Forall (fun d => is_Some (dict_get INTERVENTION_OPTIONS d)) selected ->
  exists levels, build_levels slider selected = Some levels /\
    forall (df_dict : gmap string (gmap string (gmap string R))) target_col years,
      is_Some (run_simulation df_dict levels target_col years selected).
Proof.
  intros Hall.
  destruct (levels_loop_Some slider ∅ selected Hall) as [levels Hlv].
  exists levels. split; [exact Hlv|]. intros df_dict target_col years.
  destruct (run_loop_spec df_dict levels target_col years selected
              {| errors := []; results := []; valid_plot := false |})
    as (st' & Hrun & _).
  { intros d Hd. apply Forall_forall with (x := d) in Hall as [key Hkey]; [|exact Hd].
    exists key. split; [exact Hkey|].
    pose proof (levels_loop_values slider ∅ levels selected d key Hlv Hd Hkey) as Hv.
    unfold levels_set. destruct (String.eqb key "pcogstate").
    - destruct Hv as [-> ->]. split; eauto.
    - rewrite Hv. eauto. }
  unfold run_simulation. rewrite Hrun. cbn [mbind option_bind].
  destruct (valid_plot st'); eauto.
Qed.

(** The sidebar reads, for a selected intervention, the slider labelled
    [<name> Level] into its key, and for the dementia intervention the two
    sliders into ["pcogstate_1"] and ["pcogstate_2"]. *)
Theorem build_levels_values {R : Type} (slider : string -> R) (selected : list string)
    (levels : gmap string R) (d key : string) :
  build_levels slider selected = Some levels -> d ∈ selected ->
  dict_get INTERVENTION_OPTIONS d = Some key ->
  if String.eqb key "pcogstate" then
    levels !! "pcogstate_1" = Some (slider "Dementia Prevalence Reduction") /\
    levels !! "pcogstate_2" = Some (slider "MCI Prevalence Reduction")
  else levels !! key = Some (slider (d +:+ " Level")).
Proof. apply levels_loop_values. Qed.

(** The sidebar sets no other level: every entry belongs to a selected
    intervention. *)
Theorem build_levels_domain {R : Type} (slider : string -> R) (selected : list string)
    (levels : gmap string R) (k : string) :
  build_levels slider selected = Some levels -> is_Some (levels !! k) ->
  exists d key, d ∈ selected /\ dict_get INTERVENTION_OPTIONS d = Some key /\
    (if String.eqb key "pcogstate" then k = "pcogstate_1" \/ k = "pcogstate_2"
     else k = key).
Proof.
  intros Hb Hk.
  destruct (levels_loop_domain slider ∅ levels selected k Hb Hk)
    as [Hk0 | (d & key & Hd & Hkey & Hn)].
  - rewrite lookup_empty in Hk0. by destruct Hk0.
  - exists d, key. split; [exact Hd|]. split; [exact Hkey|].
    unfold level_names in Hn. destruct (String.eqb key "pcogstate").
    + apply elem_of_cons in Hn as [-> | Hn]; [by left|].
      apply elem_of_cons in Hn as [-> | Hn]; [by right | by apply elem_of_nil in Hn].
    + apply elem_of_cons in Hn as [-> | Hn]; [done | by apply elem_of_nil in Hn].
Qed.

(** *** app.py: the year range *)

(** [list(range(start_year, end_year + 1, 2))] lists exactly the years
    [start_year], [start_year + 2], ... that are at most [end_year]. *)
Theorem year_range_lookup (start_year end_year : Z) (i : nat) (y : Z) :
  year_range start_year end_year !! i = Some y <->
  y = (start_year + 2 * Z.of_nat i)%Z /\ (start_year + 2 * Z.of_nat i <= end_year)%Z.
Proof.
  unfold year_range, py_range. rewrite list_lookup_fmap, fmap_Some.
  setoid_rewrite lookup_seq.
  pose proof (Z.div_mod (end_year + 1 - start_year + 2 - 1) 2 ltac:(lia)) as Hdm.
  pose proof (Z.mod_pos_bound (end_year + 1 - start_year + 2 - 1) 2 ltac:(lia)) as Hmb.
  set (q := ((end_year + 1 - start_year + 2 - 1) / 2)%Z) in *.
  set (r := ((end_year + 1 - start_year + 2 - 1) mod 2)%Z) in *.
  split.
  - intros (j & [-> Hi] & ->). split; [reflexivity|].
    simpl in Hi. lia.
  - intros [-> Hle]. exists i. split; [split; [reflexivity | lia] | reflexivity].
Qed.

(** *** app.py: the columns of [results_df] and the change chart *)

Lemma dict_get_set_column {V : Type} (cols : list (string * V)) (n m : string) (v : V) :
  dict_get (set_column cols n v) m = if String.eqb n m then Some v else dict_get cols m.
Proof.
  induction cols as [|[n' v'] cols IH]; cbn [set_column dict_get]; [reflexivity|].
  destruct (String.eqb_spec n' n) as [-> | Hne]; cbn [dict_get].
  - by destruct (String.eqb n m).
  - rewrite IH. destruct (String.eqb_spec n' m) as [-> | _]; [|reflexivity].
    apply String.eqb_neq in Hne. rewrite String.eqb_sym in Hne. by rewrite Hne.
Qed.

Lemma string_app_inj_r (s1 s2 t : string) : s1 +:+ t = s2 +:+ t -> s1 = s2.
Proof.
  revert s2. induction s1 as [|c1 s1 IH]; intros [|c2 s2] Heq.
  - reflexivity.
  - exfalso. apply (f_equal String.length) in Heq.
    change (String.length t = String.length (String c2 (s2 +:+ t))) in Heq.
    simpl in Heq. rewrite string_length_app in Heq. lia.
  - exfalso. apply (f_equal String.length) in Heq.
    change (String.length (String c1 (s1 +:+ t)) = String.length t) in Heq.
    simpl in Heq. rewrite string_length_app in Heq. lia.
  - change (String c1 (s1 +:+ t) = String c2 (s2 +:+ t)) in Heq.
    injection Heq as -> Heq. by rewrite (IH s2 Heq).
Qed.

Lemma result_col_inj (pre d1 d2 : string) :
  pre +:+ d1 +:+ ")" = pre +:+ d2 +:+ ")" -> d1 = d2.
Proof. intros H. apply (inj (String.app pre)) in H. exact (string_app_inj_r _ _ _ H). Qed.

(** The names of the three columns of a display name, and of two different
    display names, are distinct. *)
Lemma result_cols_distinct (d1 d2 : string) :
  baseline_col d1 <> intervention_col d2 /\ baseline_col d1 <> change_col d2 /\
  intervention_col d1 <> change_col d2.
Proof.
  unfold baseline_col, intervention_col, change_col.
  split; [|split]; intros H; discriminate H.
Qed.

Lemma result_cols_other (d d0 n : string) :
  d <> d0 -> n ∈ [baseline_col d; intervention_col d; change_col d] ->
  String.eqb (change_col d0) n = false /\ String.eqb (intervention_col d0) n = false /\
  String.eqb (baseline_col d0) n = false.
Proof.
  intros Hne Hn.
  pose proof (result_cols_distinct d d0) as (H1 & H2 & H3).
  pose proof (result_cols_distinct d0 d) as (H1' & H2' & H3').
  rewrite !String.eqb_neq.
  repeat (apply elem_of_cons in Hn as [-> | Hn]); [| | | by apply elem_of_nil in Hn];
    split_and!; intros H; try (by apply Hne; symmetry; apply (result_col_inj _ _ _ H));
    congruence.
Qed.

Section ResultsProps.
Context {R : Type} `{!Num R}.
Abbreviation frame := (gmap string (gmap string R)).

Lemma run_step_results (df_dict : gmap string frame) (levels : gmap string R)
    (target_col : string) (years : list Z) (st st1 : run_state R) (d : string) :
  run_step df_dict levels target_col years st d = Some st1 ->
  if usable df_dict target_col d then
    exists b i c, column_series df_dict levels target_col years d = Some (b, i, c) /\
      forall m, dict_get (results st1) m =
        if String.eqb (change_col d) m then Some c
        else if String.eqb (intervention_col d) m then Some i
        else if String.eqb (baseline_col d) m then Some b
        else dict_get (results st) m
  else results st1 = results st.
Proof.
  unfold run_step, usable, column_series.
  destruct (dict_get INTERVENTION_OPTIONS d) as [key|]; [|done].
  cbn [mbind option_bind].
  destruct (df_dict !! key) as [df|]; [|by intros [= <-]].
  cbn [mbind option_bind].
  destruct (df !! target_col) as [beta|]; [|by intros [= <-]].
  cbn [mbind option_bind].
  rewrite bool_decide_eq_true_2 by eauto. unfold series.
  destruct (year_loop key levels beta years [] []) as [[b i]|]; [|done].
  cbn [mbind option_bind]. intros [= <-].
  exists b, i, (diff_values i b). split; [reflexivity|]. intros m. cbn [results].
  rewrite !dict_get_set_column.
  destruct (String.eqb (change_col d) m), (String.eqb (intervention_col d) m),
    (String.eqb (baseline_col d) m); reflexivity.
Qed.

Lemma run_loop_results (df_dict : gmap string frame) (levels : gmap string R)
    (target_col : string) (years : list Z) (selected : list string) (st st' : run_state R) :
  run_loop df_dict levels target_col years st selected = Some st' ->
  forall d,
    (d ∈ selected -> usable df_dict target_col d = true ->
       exists b i c, column_series df_dict levels target_col years d = Some (b, i, c) /\
         dict_get (results st') (baseline_col d) = Some b /\
         dict_get (results st') (intervention_col d) = Some i /\
         dict_get (results st') (change_col d) = Some c) /\
    ((d ∉ selected \/ usable df_dict target_col d = false) ->
       forall n, n ∈ [baseline_col d; intervention_col d; change_col d] ->
         dict_get (results st') n = dict_get (results st) n).
Proof.
  revert st. induction selected as [|d0 ds IH]; intros st Hrun d; cbn [run_loop] in Hrun.
  - injection Hrun as <-. split; [by intros Hin; apply elem_of_nil in Hin | done].
  - destruct (run_step df_dict levels target_col years st d0) as [st1|] eqn:Hstep; [|done].
    cbn [mbind option_bind] in Hrun.
    pose proof (IH st1 Hrun d) as [IH1 IH2].
    pose proof (run_step_results df_dict levels target_col years st st1 d0 Hstep) as Hs.
    split.
    + intros Hd Hus. destruct (decide (d ∈ ds)) as [Hds | Hds]; [exact (IH1 Hds Hus)|].
      apply elem_of_cons in Hd as [-> | Hd]; [|done].
      rewrite Hus in Hs. destruct Hs as (b & i & c & Hser & Hcols).
      exists b, i, c. split; [exact Hser|].
      rewrite !IH2 by (by left + (right; left) + (right; right; left)).
      rewrite !Hcols.
      pose proof (result_cols_distinct d0 d0) as (H1 & H2 & H3).
      repeat match goal with
             | |- context [String.eqb ?a ?b] => destruct (String.eqb_spec a b)
             end; split_and!; congruence.
    + intros Hout n Hn.
      rewrite IH2 by (done + (destruct Hout as [Hout | Hout]; [left; set_solver | by right])).
      destruct (usable df_dict target_col d0) eqn:Hus0; [|by rewrite Hs].
      destruct Hs as (b & i & c & _ & Hcols). rewrite Hcols.
      assert (Hne : d <> d0).
      { intros ->. destruct Hout as [Hout | Hout]; [apply Hout; by left | congruence]. }
      destruct (result_cols_other d d0 n Hne Hn) as (-> & -> & ->). reflexivity.
Qed.

End ResultsProps.

Section ChangeChart.
Context (results_df : list (string * list float)) (years : list Z)
  (selected_outcome : string).

Lemma change_traces_names (i : nat) (selected : list string) :
  tr_name <$> change_traces results_df years selected_outcome i selected =
  change_name <$> filter (fun d => is_Some (dict_get results_df (change_col d))) selected.
Proof.
  revert i. induction selected as [|d ds IH]; intros i; [reflexivity|].
  cbn [change_traces]. rewrite filter_cons.
  destruct (dict_get results_df (change_col d)) as [y|].
  - rewrite decide_True by eauto. cbn [fmap list_fmap tr_name]. by rewrite IH.
  - rewrite decide_False by (by intros []). apply IH.
Qed.

Lemma change_traces_elem (i : nat) (selected : list string) (t : trace) :
  t ∈ change_traces results_df years selected_outcome i selected ->
  exists d y, d ∈ selected /\ dict_get results_df (change_col d) = Some y /\
    tr_name t = change_name d /\ tr_x t = years /\ tr_y t = percent_scale selected_outcome y.
Proof.
  revert i. induction selected as [|d ds IH]; intros i Ht; cbn [change_traces] in Ht;
    [by apply elem_of_nil in Ht|].
  destruct (dict_get results_df (change_col d)) as [y|] eqn:Hy.
  - apply elem_of_cons in Ht as [-> | Ht].
    + exists d, y. split; [by left|]. split; [exact Hy|]. done.
    + destruct (IH (S i) Ht) as (d' & y' & Hd' & Hrest). exists d', y'.
      split; [by right | exact Hrest].
  - destruct (IH (S i) Ht) as (d' & y' & Hd' & Hrest). exists d', y'.
    split; [by right | exact Hrest].
Qed.

End ChangeChart.

Lemma filter_ext_elem {A : Type} (P Q : A -> Prop) `{!forall x, Decision (P x)}
    `{!forall x, Decision (Q x)} (l : list A) :
  (forall x, x ∈ l -> P x <-> Q x) -> filter P l = filter Q l.
Proof.
  induction l as [|x l IH]; intros Hpq; [reflexivity|].
  rewrite !filter_cons.
  rewrite IH by (intros y Hy; apply Hpq; by right).
  destruct (decide (P x)) as [Hp | Hp], (decide (Q x)) as [Hq | Hq]; try reflexivity;
    exfalso; [apply Hq | apply Hp]; apply (Hpq x); try (by left); done.
Qed.

(** After a run that draws the charts, [results_df] holds for each selected
    intervention whose table is loaded and has the column its
    [Baseline], [Intervention] and [Change] columns, set to its baseline,
    intervention and change series; no other intervention has any of these
    columns. *)
Theorem results_columns {R : Type} `{!Num R}
    (df_dict : gmap string (gmap string (gmap string R))) (levels : gmap string R)
    (target_col : string) (years : list Z) (selected : list string)
    (errs : list string) (cols : list (string * list R)) (d : string) :
  run_simulation df_dict levels target_col years selected = Some (Plotted errs cols) ->
  (d ∈ selected -> usable df_dict target_col d = true ->
     exists b i c, column_series df_dict levels target_col years d = Some (b, i, c) /\
       dict_get cols (baseline_col d) = Some b /\
       dict_get cols (intervention_col d) = Some i /\
       dict_get cols (change_col d) = Some c) /\
  ((d ∉ selected \/ usable df_dict target_col d = false) ->
     dict_get cols (baseline_col d) = None /\ dict_get cols (intervention_col d) = None /\
     dict_get cols (change_col d) = None).
Proof.
  unfold run_simulation.
  destruct (run_loop df_dict levels target_col years
              {| errors := []; results := []; valid_plot := false |} selected)
    as [st'|] eqn:Hrun; [|done].
  cbn [mbind option_bind]. destruct (valid_plot st'); [|done]. intros [= <- <-].
  destruct (run_loop_results df_dict levels target_col years selected _ st' Hrun d)
    as [Hin Hout].
  split; [exact Hin|]. intros Hno.
  rewrite !(Hout Hno) by (by left + (right; left) + (right; right; left)).
  split_and!; reflexivity.
Qed.

(** The change chart of a run has one curve per selected intervention whose
    table is loaded and has the column, in the order of the selection,
    named [<b>Change:</b> <name>]; each curve is drawn over the years of
    the run and is that intervention's change series, multiplied by 100
    when the outcome label contains [%]. *)
Theorem change_chart_curves (df_dict : gmap string (gmap string (gmap string float)))
    (levels : gmap string float) (target_col : string) (years : list Z)
    (selected : list string) (errs : list string) (cols : list (string * list float))
    (selected_outcome : string) :
  run_simulation df_dict levels target_col years selected = Some (Plotted errs cols) ->
  tr_name <$> change_traces cols years selected_outcome 0 selected =
    change_name <$> filter (fun d => usable df_dict target_col d = true) selected /\
  forall t, t ∈ change_traces cols years selected_outcome 0 selected ->
    exists d b i c, d ∈ selected /\ tr_name t = change_name d /\
      column_series df_dict levels target_col years d = Some (b, i, c) /\
      tr_x t = years /\ tr_y t = percent_scale selected_outcome c.
Proof.
  unfold run_simulation.
  destruct (run_loop df_dict levels target_col years
              {| errors := []; results := []; valid_plot := false |} selected)
    as [st'|] eqn:Hrun; [|done].
  cbn [mbind option_bind]. destruct (valid_plot st'); [|done]. intros [= <- <-].
  pose proof (run_loop_results df_dict levels target_col years selected _ st' Hrun) as Hcols.
  split.
  - rewrite change_traces_names. f_equal. apply filter_ext_elem. intros d Hd.
    destruct (Hcols d) as [Hin Hout]. split.
    + intros Hs. destruct (usable df_dict target_col d) eqn:Hus; [reflexivity|].
      exfalso. rewrite (Hout (or_intror eq_refl)) in Hs
        by (by right; right; left). by destruct Hs.
    + intros Hus. destruct (Hin Hd Hus) as (b & i & c & _ & _ & _ & ->). eauto.
  - intros t Ht.
    destruct (change_traces_elem (results st') years selected_outcome 0 selected t Ht)
      as (d & y & Hd & Hy & Hname & Hx & Hty).
    destruct (Hcols d) as [Hin Hout].
    destruct (usable df_dict target_col d) eqn:Hus.
    + destruct (Hin Hd eq_refl) as (b & i & c & Hser & _ & _ & Hc).
      exists d, b, i, c. split_and!; try done. rewrite Hty. congruence.
    + exfalso. rewrite (Hout (or_intror eq_refl)) in Hy by (by right; right; left).
      discriminate.
Qed.

(** *** The two scripts agree on the cleaned files *)

(** app.py loads a table exactly for the names clean_data.py cleans, and
    reads it from the path clean_data.py writes it to. *)
Theorem cleaned_paths_agree (name : string) :
  dict_get CLEANED_DATASETS name =
    (_ ← dict_get RAW_DATASETS name; Some (output_path name)).
Proof.
  cbn [dict_get CLEANED_DATASETS RAW_DATASETS].
  repeat match goal with
         | |- context [String.eqb ?a name] => destruct (String.eqb_spec a name) as [<- | _]
         end; reflexivity.
Qed.

(** *** Witnesses of the properties above *)

Lemma no_files_stop_witness :
  run_simulation (load_cleaned_data (fun _ => false)
                    (fun _ => (∅ : gmap string (gmap string float))))
    demo_levels "p_diabe_all" [2026%Z] demo_selected =
  Some (Stopped [not_loaded_msg "pdiabe"; not_loaded_msg "phearte"; not_loaded_msg "phibpe"]).
Proof.
  rewrite (@no_files_stop float float_Num (fun _ => false) (fun _ => ∅) demo_levels
             "p_diabe_all" [2026%Z] demo_selected (fun _ => eq_refl)).
  vm_compute. reflexivity.
Defined.

Lemma valid_selection_runs_witness :
  exists levels, build_levels demo_slider demo_selected = Some levels /\
    is_Some (run_simulation demo_df_dict levels "p_diabe_all" [2026%Z] demo_selected).
Proof.
  destruct (@valid_selection_runs float float_Num demo_slider demo_selected
              ltac:(repeat econstructor)) as (levels & Hb & Hrun).
  exists levels. split; [exact Hb | apply Hrun].
Defined.

Lemma build_levels_values_witness :
  exists levels, build_levels sample_slider sample_selected = Some levels /\
    levels !! "pdiabe" = Some 0.6%float /\ levels !! "phibpe" = Some 0.95%float /\
    levels !! "pcogstate_1" = Some 0.7%float /\ levels !! "pcogstate_2" = Some 0.8%float.
Proof.
  match eval vm_compute in (build_levels sample_slider sample_selected) with
  | Some ?l =>
      assert (Hb : build_levels sample_slider sample_selected = Some l)
        by (vm_compute; reflexivity);
      exists l
  end.
  split; [exact Hb|].
  assert (Hd : "Diabetes Incidence Reduction" ∈ sample_selected) by (by left).
  assert (Hm : "MCI/Dementia Incidence Reduction" ∈ sample_selected) by (by right; left).
  assert (Hh : "Hypertension Incidence Reduction" ∈ sample_selected)
    by (by right; right; left).
  pose proof (build_levels_values sample_slider sample_selected _
                "Diabetes Incidence Reduction" "pdiabe" Hb Hd eq_refl) as H1.
  pose proof (build_levels_values sample_slider sample_selected _
                "Hypertension Incidence Reduction" "phibpe" Hb Hh eq_refl) as H2.
  pose proof (build_levels_values sample_slider sample_selected _
                "MCI/Dementia Incidence Reduction" "pcogstate" Hb Hm eq_refl) as H3.
  destruct H3 as [H3 H4].
  split; [exact H1|]. split; [exact H2|]. split; [exact H3 | exact H4].
Defined.

Lemma build_levels_domain_witness :
  (exists d key, d ∈ sample_selected /\ dict_get INTERVENTION_OPTIONS d = Some key /\
     (if String.eqb key "pcogstate" then "phibpe" = "pcogstate_1" \/ "phibpe" = "pcogstate_2"
      else "phibpe" = key)) /\
  (exists d key, d ∈ sample_selected /\ dict_get INTERVENTION_OPTIONS d = Some key /\
     (if String.eqb key "pcogstate" then
        "pcogstate_1" = "pcogstate_1" \/ "pcogstate_1" = "pcogstate_2"
      else "pcogstate_1" = key)).
Proof.
  match eval vm_compute in (build_levels sample_slider sample_selected) with
  | Some ?l =>
      assert (Hb : build_levels sample_slider sample_selected = Some l)
        by (vm_compute; reflexivity)
  end.
  split.
  - exact (build_levels_domain sample_slider sample_selected _ "phibpe" Hb
             ltac:(vm_compute; eexists; reflexivity)).
  - exact (build_levels_domain sample_slider sample_selected _ "pcogstate_1" Hb
             ltac:(vm_compute; eexists; reflexivity)).
Defined.

Lemma results_columns_witness :
  exists errs cols,
    run_simulation demo_df_dict demo_levels "p_diabe_all" [2026%Z] demo_selected =
      Some (Plotted errs cols) /\
    dict_get cols (change_col "Diabetes Incidence Reduction") = None /\
    exists b i c,
      column_series demo_df_dict demo_levels "p_diabe_all" [2026%Z]
        "Heart Disease Incidence Reduction" = Some (b, i, c) /\
      dict_get cols (change_col "Heart Disease Incidence Reduction") = Some c.
Proof.
  match eval vm_compute in
    (run_simulation demo_df_dict demo_levels "p_diabe_all" [2026%Z] demo_selected) with
  | Some (Plotted ?e ?c) =>
      assert (Hr : run_simulation demo_df_dict demo_levels "p_diabe_all" [2026%Z]
                     demo_selected = Some (Plotted e c)) by (vm_compute; reflexivity);
      exists e, c
  end.
  split; [exact Hr|]. split.
  - assert (Hus : usable demo_df_dict "p_diabe_all" "Diabetes Incidence Reduction" = false)
      by (vm_compute; reflexivity).
    exact (proj2 (proj2 (proj2 (results_columns demo_df_dict demo_levels "p_diabe_all"
             [2026%Z] demo_selected _ _ "Diabetes Incidence Reduction" Hr) (or_intror Hus)))).
  - assert (Hus : usable demo_df_dict "p_diabe_all" "Heart Disease Incidence Reduction" = true)
      by (vm_compute; reflexivity).
    assert (Hin : "Heart Disease Incidence Reduction" ∈ demo_selected) by (by right; left).
    destruct (proj1 (results_columns demo_df_dict demo_levels "p_diabe_all" [2026%Z]
                demo_selected _ _ "Heart Disease Incidence Reduction" Hr) Hin Hus)
      as (b & i & c' & Hs & _ & _ & Hc).
    exists b, i, c'. split; [exact Hs | exact Hc].
Defined.

Lemma change_chart_curves_witness :
  exists errs cols,
    run_simulation demo_df_dict demo_levels "p_diabe_all" [2026%Z] demo_selected =
      Some (Plotted errs cols) /\
    tr_name <$> change_traces cols [2026%Z] "Diabetes Prevalence (%)" 0 demo_selected =
      [change_name "Heart Disease Incidence Reduction"].
Proof.
  match eval vm_compute in
    (run_simulation demo_df_dict demo_levels "p_diabe_all" [2026%Z] demo_selected) with
  | Some (Plotted ?e ?c) =>
      assert (Hr : run_simulation demo_df_dict demo_levels "p_diabe_all" [2026%Z]
                     demo_selected = Some (Plotted e c)) by (vm_compute; reflexivity);
      exists e, c
  end.
  split; [exact Hr|].
  rewrite (proj1 (change_chart_curves demo_df_dict demo_levels "p_diabe_all" [2026%Z]
                    demo_selected _ _ "Diabetes Prevalence (%)" Hr)).
  vm_compute. reflexivity.
Defined.
